(** * MyWorkView: the data reconciliation and retry layer

    A shallow embedding of the parts of the board-data viewer that fetch,
    retry, aggregate, filter, sort and persist state:
    - [src/hooks/useMondayAPI.jsx] ([queryMonday]),
    - [src/App.jsx] ([retry], [fetchBoardData], the polling effect,
      [allAvailableColumnsForSelectedBoards], [loadSettings],
      [saveSettingsAutomatically]),
    - [src/components/TaskTable/TaskTable.jsx]
      ([handleFilterChange], [filteredAndSortedBoardItems]).

    JavaScript strings are modelled as Rocq [string]s (8-bit characters),
    JavaScript values produced by [JSON.parse] as the inductive [json]
    (numbers restricted to integers, which is what the board payloads
    carry), and awaited calls as explicit state passing. *)

From Stdlib Require Import String Ascii List ZArith Bool Lia.
From Stdlib Require Import DecimalString Permutation.
Import ListNotations.

Open Scope list_scope.
Open Scope string_scope.
Set Warnings "-register-all".

(* ------------------------------------------------------------------ *)
(** ** JavaScript string primitives *)

(** [prefixb p s]: [s.startsWith(p)]. *)
Fixpoint prefixb (p s : string) : bool :=
  match p, s with
  | EmptyString, _ => true
  | String a p', String b s' => Ascii.eqb a b && prefixb p' s'
  | String _ _, EmptyString => false
  end.

(** [includes s p]: [s.includes(p)]. *)
Fixpoint includes (s p : string) : bool :=
  prefixb p s ||
  match s with
  | EmptyString => false
  | String _ s' => includes s' p
  end.

(** ECMAScript's WhiteSpace and LineTerminator sets on the 8-bit code
    units (Latin-1) that [ascii] covers: TAB, LF, VT, FF, CR (9 to 13),
    SPACE (32) and NO-BREAK SPACE (160). *)
Definition is_js_space (c : ascii) : bool :=
  let n := nat_of_ascii c in
  (n =? 32)%nat || ((9 <=? n)%nat && (n <=? 13)%nat) || (n =? 160)%nat.

Fixpoint trim_start_list (l : list ascii) : list ascii :=
  match l with
  | c :: l' => if is_js_space c then trim_start_list l' else l
  | [] => []
  end.

(** [trim s]: [s.trim()]. *)
Definition trim (s : string) : string :=
  string_of_list_ascii
    (rev (trim_start_list (rev (trim_start_list (list_ascii_of_string s))))).

(** [join sep l]: [l.join(sep)]. *)
Definition join (sep : string) (l : list string) : string := String.concat sep l.

(** [String(n)] for an integer [n]. *)
Definition z_to_string (z : Z) : string :=
  match z with
  | Z0 => "0"
  | Zpos p => NilZero.string_of_uint (Pos.to_uint p)
  | Zneg p => "-" ++ NilZero.string_of_uint (Pos.to_uint p)
  end.

(** [l.includes(x)] for an array of strings. *)
Definition str_mem (x : string) (l : list string) : bool :=
  existsb (String.eqb x) l.

(* ------------------------------------------------------------------ *)
(** ** JavaScript values as produced by [JSON.parse] *)

Inductive json : Type :=
| JNull
| JBool (b : bool)
| JNum (n : Z)
| JStr (s : string)
| JArr (l : list json)
| JObj (fields : list (string * json)).

(** JavaScript truthiness. *)
Definition truthy (v : json) : bool :=
  match v with
  | JNull => false
  | JBool b => b
  | JNum n => negb (Z.eqb n 0)
  | JStr s => negb (String.eqb s "")
  | JArr _ | JObj _ => true
  end.

(** Truthiness of a property read, where [None] is [undefined]. *)
Definition truthy_opt (v : option json) : bool :=
  match v with Some v => truthy v | None => false end.

(** Property of an object literal: [JSON.parse] keeps the last duplicate. *)
Fixpoint assoc_last {A} (k : string) (l : list (string * A)) : option A :=
  match l with
  | [] => None
  | (k', v) :: l' =>
      match assoc_last k l' with
      | Some w => Some w
      | None => if String.eqb k k' then Some v else None
      end
  end.

(** [v[k]] for a named (non-index) property: [None] is [undefined];
    reading a property of [null] throws a [TypeError] ([inl tt]). *)
Definition get_prop (v : json) (k : string) : unit + option json :=
  match v with
  | JNull => inl tt
  | JObj fs => inr (assoc_last k fs)
  | _ => inr None
  end.

(** [String(v)] for primitive values. *)
Definition js_string (v : json) : string :=
  match v with
  | JNull => "null"
  | JBool true => "true"
  | JBool false => "false"
  | JNum n => z_to_string n
  | JStr s => s
  | JArr _ => "[array]"
  | JObj _ => "[object Object]"
  end.

(* ------------------------------------------------------------------ *)
(** ** Request executor: [queryMonday] and [retry] *)

(** A JavaScript [Error]: its [name], [message], and the fields the
    classifier of [retry] reads: [error.response.status] and
    [error.response.errors[0].extensions.code]. *)
Record JsError := mkError {
  err_name : string;
  err_message : string;
  err_status : option Z;
  err_ext_code : option string
}.

(** [new Error(m)]. *)
Definition new_Error (m : string) : JsError := mkError "Error" m None None.

(** What one [await monday.api(query, { variables })] produces: a response
    with [data] and no [errors], a response whose [errors] field is set
    (an array of [{message}]), or a rejection. *)
Inductive ApiOutcome : Type :=
| ApiData (d : json)
| ApiErrors (msgs : list string)
| ApiReject (e : JsError).

Inductive Result (A : Type) : Type :=
| Ok (a : A)
| Err (e : JsError).
Arguments Ok {A} a.
Arguments Err {A} e.

(** Execution trace of one executor run: the number of [monday.api] calls
    issued so far and the [setTimeout] delays slept, in order. *)
Record Exec := mkExec { attempts : nat; sleeps : list Z }.

Section Executor.

(** The platform's answer to the [n]-th call of [monday.api]. *)
Variable api : nat -> ApiOutcome.

Definition call (s : Exec) : ApiOutcome * Exec :=
  (api (attempts s), mkExec (S (attempts s)) (sleeps s)).

Definition sleep (d : Z) (s : Exec) : Exec :=
  mkExec (attempts s) (sleeps s ++ [d])%list.

Definition is_rate_limit_message (m : string) : bool :=
  includes m "Rate limit passed" || includes m "Rate limit exceeded".

(** [queryMonday(query, variables, retries, delay)]. *)
Fixpoint queryMonday (retries : nat) (delay : Z) (s : Exec) : Result json * Exec :=
  let '(o, s1) := call s in
  let on_caught (e : JsError) :=
    match retries with
    | S r =>
        if includes (err_message e) "Rate limit passed"
        then queryMonday r (delay * 2) (sleep delay s1)
        else (Err e, s1)
    | O => (Err e, s1)
    end in
  match o with
  | ApiData d => (Ok d, s1)
  | ApiErrors msgs =>
      match retries with
      | S r =>
          if existsb is_rate_limit_message msgs
          then queryMonday r (delay * 2) (sleep delay s1)
          else on_caught (new_Error (join "; " msgs))
      | O => on_caught (new_Error (join "; " msgs))
      end
  | ApiReject e => on_caught e
  end.

End Executor.

(** The classifier of [retry] in [App.jsx]. *)
Definition is_transient (e : JsError) : bool :=
  includes (err_message e) "Concurrency limit exceeded"
  || includes (err_message e) "Graphql validation errors"
  || match err_status e with Some st => Z.eqb st 429 | None => false end
  || match err_ext_code e with
     | Some c => String.eqb c "FIELD_LIMIT_EXCEEDED"
     | None => false
     end.

(** [retry(fn, retries, delay, factor)]. *)
Fixpoint retry (fn : Exec -> Result json * Exec) (retries : nat) (delay factor : Z)
    (s : Exec) : Result json * Exec :=
  match fn s with
  | (Ok d, s') => (Ok d, s')
  | (Err e, s') =>
      match retries with
      | S r =>
          if is_transient e
          then retry fn r (delay * factor) factor (sleep delay s')
          else (Err e, s')
      | O => (Err e, s')
      end
  end.

(** The executor as every call site in [App.jsx] uses it:
    [retry(() => queryMonday(query))] with the default parameters. *)
Definition execute (api : nat -> ApiOutcome) : Exec -> Result json * Exec :=
  retry (queryMonday api 3 500) 5 2000 2.

Definition exec0 : Exec := mkExec 0 [].

(* ------------------------------------------------------------------ *)
(** ** A concrete [JSON.stringify] / [JSON.parse] pair

    The embedding of the application is stated for any [JSON.parse]
    ([string -> option json], [None] when it throws) and any
    [JSON.stringify]; the pair below, for the integer-number fragment of
    JSON, is used to run the application on concrete inputs. *)

Definition dq : ascii := ascii_of_nat 34.
Definition bsl : ascii := ascii_of_nat 92.

Definition hex_char (n : nat) : ascii :=
  if (n <? 10)%nat then ascii_of_nat (48 + n) else ascii_of_nat (87 + n).

Definition escape_char (c : ascii) : list ascii :=
  let n := nat_of_ascii c in
  if (n =? 34)%nat then [bsl; dq]
  else if (n =? 92)%nat then [bsl; bsl]
  else if (n =? 8)%nat then [bsl; "b"%char]
  else if (n =? 12)%nat then [bsl; "f"%char]
  else if (n =? 10)%nat then [bsl; "n"%char]
  else if (n =? 13)%nat then [bsl; "r"%char]
  else if (n =? 9)%nat then [bsl; "t"%char]
  else if (n <? 32)%nat
  then [bsl; "u"%char; "0"%char; "0"%char; hex_char (n / 16); hex_char (n mod 16)]
  else [c].

Definition quote (s : string) : string :=
  string_of_list_ascii
    ([dq] ++ List.concat (map escape_char (list_ascii_of_string s)) ++ [dq])%list.

Fixpoint stringify (v : json) : string :=
  match v with
  | JNull => "null"
  | JBool true => "true"
  | JBool false => "false"
  | JNum n => z_to_string n
  | JStr s => quote s
  | JArr l => "[" ++ join "," (map stringify l) ++ "]"
  | JObj fs =>
      "{" ++ join "," (map (fun kv => quote (fst kv) ++ ":" ++ stringify (snd kv)) fs)
      ++ "}"
  end.

Definition is_json_ws (c : ascii) : bool :=
  let n := nat_of_ascii c in
  (n =? 32)%nat || (n =? 9)%nat || (n =? 10)%nat || (n =? 13)%nat.

Fixpoint skip_ws (l : list ascii) : list ascii :=
  match l with
  | c :: l' => if is_json_ws c then skip_ws l' else l
  | [] => []
  end.

Fixpoint strip_lit (lit l : list ascii) : option (list ascii) :=
  match lit, l with
  | [], _ => Some l
  | a :: lit', b :: l' => if Ascii.eqb a b then strip_lit lit' l' else None
  | _ :: _, [] => None
  end.

Definition hex_val (c : ascii) : option nat :=
  let n := nat_of_ascii c in
  if ((48 <=? n) && (n <=? 57))%nat then Some (n - 48)
  else if ((97 <=? n) && (n <=? 102))%nat then Some (n - 87)
  else if ((65 <=? n) && (n <=? 70))%nat then Some (n - 55)
  else None.

Definition is_digit (c : ascii) : bool :=
  let n := nat_of_ascii c in ((48 <=? n) && (n <=? 57))%nat.

(** The characters of a string literal up to its closing quote. *)
Fixpoint pstr (fuel : nat) (l : list ascii) : option (list ascii * list ascii) :=
  match fuel with
  | O => None
  | S f =>
      match l with
      | [] => None
      | c :: r =>
          if Ascii.eqb c dq then Some ([], r)
          else if Ascii.eqb c bsl then
            match r with
            | e :: r' =>
                let simple ch :=
                  match pstr f r' with
                  | Some (cs, rest) => Some (ch :: cs, rest)
                  | None => None
                  end in
                if Ascii.eqb e dq then simple dq
                else if Ascii.eqb e bsl then simple bsl
                else if Ascii.eqb e "/"%char then simple "/"%char
                else if Ascii.eqb e "b"%char then simple (ascii_of_nat 8)
                else if Ascii.eqb e "f"%char then simple (ascii_of_nat 12)
                else if Ascii.eqb e "n"%char then simple (ascii_of_nat 10)
                else if Ascii.eqb e "r"%char then simple (ascii_of_nat 13)
                else if Ascii.eqb e "t"%char then simple (ascii_of_nat 9)
                else if Ascii.eqb e "u"%char then
                  match r' with
                  | h1 :: h2 :: h3 :: h4 :: r'' =>
                      match hex_val h1, hex_val h2, hex_val h3, hex_val h4 with
                      | Some a, Some b, Some c3, Some d =>
                          let code := ((a * 16 + b) * 16 + c3) * 16 + d in
                          if (code <? 256)%nat then
                            match pstr f r'' with
                            | Some (cs, rest) => Some (ascii_of_nat code :: cs, rest)
                            | None => None
                            end
                          else None
                      | _, _, _, _ => None
                      end
                  | _ => None
                  end
                else None
            | [] => None
            end
          else if (nat_of_ascii c <? 32)%nat then None
          else
            match pstr f r with
            | Some (cs, rest) => Some (c :: cs, rest)
            | None => None
            end
      end
  end.

Fixpoint digits (l : list ascii) : list ascii * list ascii :=
  match l with
  | c :: r => if is_digit c then let '(ds, rest) := digits r in (c :: ds, rest) else ([], l)
  | [] => ([], [])
  end.

Definition digits_value (ds : list ascii) : Z :=
  fold_left (fun acc c => (acc * 10 + Z.of_nat (nat_of_ascii c - 48))%Z) ds 0%Z.

(** An integer literal; fractions and exponents fall outside the fragment. *)
Definition pnum (l : list ascii) : option (json * list ascii) :=
  let '(neg, l1) :=
    match l with
    | c :: r => if Ascii.eqb c "-"%char then (true, r) else (false, l)
    | [] => (false, l)
    end in
  match digits l1 with
  | ([], _) => None
  | (d :: ds, rest) =>
      if Ascii.eqb d "0"%char && negb (Nat.eqb (length ds) 0) then None
      else
        match rest with
        | c :: _ =>
            if Ascii.eqb c "."%char || Ascii.eqb c "e"%char || Ascii.eqb c "E"%char
            then None
            else Some (JNum (if neg then Z.opp (digits_value (d :: ds)) else digits_value (d :: ds)), rest)
        | [] => Some (JNum (if neg then Z.opp (digits_value (d :: ds)) else digits_value (d :: ds)), rest)
        end
  end.

Fixpoint pvalue (fuel : nat) (l : list ascii) : option (json * list ascii) :=
  match fuel with
  | O => None
  | S f =>
      match skip_ws l with
      | [] => None
      | c :: r =>
          if Ascii.eqb c dq then
            match pstr (length r) r with
            | Some (cs, rest) => Some (JStr (string_of_list_ascii cs), rest)
            | None => None
            end
          else if Ascii.eqb c "["%char then
            match skip_ws r with
            | c' :: r' => if Ascii.eqb c' "]"%char then Some (JArr [], r') else pelems f [] r
            | [] => None
            end
          else if Ascii.eqb c "{"%char then
            match skip_ws r with
            | c' :: r' => if Ascii.eqb c' "}"%char then Some (JObj [], r') else pmembers f [] r
            | [] => None
            end
          else
            match strip_lit (list_ascii_of_string "null") (c :: r) with
            | Some rest => Some (JNull, rest)
            | None =>
            match strip_lit (list_ascii_of_string "true") (c :: r) with
            | Some rest => Some (JBool true, rest)
            | None =>
            match strip_lit (list_ascii_of_string "false") (c :: r) with
            | Some rest => Some (JBool false, rest)
            | None => pnum (c :: r)
            end end end
      end
  end
with pelems (fuel : nat) (acc : list json) (l : list ascii) : option (json * list ascii) :=
  match fuel with
  | O => None
  | S f =>
      match pvalue f l with
      | None => None
      | Some (v, r) =>
          match skip_ws r with
          | c :: r' =>
              if Ascii.eqb c ","%char then pelems f (acc ++ [v])%list r'
              else if Ascii.eqb c "]"%char then Some (JArr (acc ++ [v])%list, r')
              else None
          | [] => None
          end
      end
  end
with pmembers (fuel : nat) (acc : list (string * json)) (l : list ascii)
    : option (json * list ascii) :=
  match fuel with
  | O => None
  | S f =>
      match skip_ws l with
      | c :: r =>
          if Ascii.eqb c dq then
            match pstr (length r) r with
            | Some (ks, r1) =>
                match skip_ws r1 with
                | c1 :: r2 =>
                    if Ascii.eqb c1 ":"%char then
                      match pvalue f r2 with
                      | Some (v, r3) =>
                          let acc' := (acc ++ [(string_of_list_ascii ks, v)])%list in
                          match skip_ws r3 with
                          | c3 :: r4 =>
                              if Ascii.eqb c3 ","%char then pmembers f acc' r4
                              else if Ascii.eqb c3 "}"%char then Some (JObj acc', r4)
                              else None
                          | [] => None
                          end
                      | None => None
                      end
                    else None
                | [] => None
                end
            | None => None
            end
          else None
      | [] => None
      end
  end.

Definition parse (s : string) : option json :=
  let l := list_ascii_of_string s in
  match pvalue (4 * length l + 4) l with
  | Some (v, rest) => match skip_ws rest with [] => Some v | _ => None end
  | None => None
  end.

(* ------------------------------------------------------------------ *)
(** ** Boards, columns and items *)

(** A column of [GET_BOARD_COLUMNS_QUERY]: [{id, title, type, settings_str}]. *)
Record Column := mkColumn {
  col_id : string;
  col_title : string;
  col_type : string;
  col_settings_str : option string
}.

(** A board of [columnsData.boards]; [bc_columns] is [None] when
    [board.columns] is missing. *)
Record BoardCols := mkBoardCols {
  bc_id : string;
  bc_name : string;
  bc_columns : option (list Column)
}.

(** An entry of [newAllBoardsData] / [allBoardsData]. *)
Record BoardInfo := mkBoardInfo {
  bi_id : string;
  bi_name : string;
  bi_columns : list Column
}.

(** An element of [item.column_values]: [{id, text, value}], plus the
    [display_value] the table reads when present. *)
Record ColumnValue := mkCV {
  cv_id : string;
  cv_text : option string;
  cv_value : option string;
  cv_display_value : option string
}.

(** An item of [itemsData.boards[0].items_page.items]. *)
Record RawItem := mkRawItem {
  ri_id : string;
  ri_name : string;
  ri_column_values : list ColumnValue
}.

(** [{...item, boardId, boardName}]. *)
Record Item := mkItem {
  item_id : string;
  item_name : string;
  column_values : list ColumnValue;
  boardId : string;
  boardName : string
}.

(** Lookup in a JavaScript object with unique keys. *)
Fixpoint assoc_first {A} (k : string) (l : list (string * A)) : option A :=
  match l with
  | [] => None
  | (k', v) :: l' => if String.eqb k k' then Some v else assoc_first k l'
  end.

(** The part of the [App] state that [fetchBoardData] writes. *)
Record BoardState := mkBoardState {
  allBoardsData : list (string * BoardInfo);
  boardItems : list Item;
  columnsError : option string;
  itemsError : option string;
  isPolling : bool
}.

Definition set_allBoardsData (v : list (string * BoardInfo)) (s : BoardState) :=
  mkBoardState v (boardItems s) (columnsError s) (itemsError s) (isPolling s).
Definition set_boardItems (v : list Item) (s : BoardState) :=
  mkBoardState (allBoardsData s) v (columnsError s) (itemsError s) (isPolling s).
Definition set_columnsError (v : option string) (s : BoardState) :=
  mkBoardState (allBoardsData s) (boardItems s) v (itemsError s) (isPolling s).
Definition set_itemsError (v : option string) (s : BoardState) :=
  mkBoardState (allBoardsData s) (boardItems s) (columnsError s) v (isPolling s).
Definition set_isPolling (v : bool) (s : BoardState) :=
  mkBoardState (allBoardsData s) (boardItems s) (columnsError s) (itemsError s) v.

Section Fetch.

(** The settled outcome of [await retry(() => queryMonday(GET_BOARD_COLUMNS_QUERY))],
    read through [columnsData && columnsData.boards] ([None] when falsy). *)
Variable columns_response : Result (option (list BoardCols)).

(** The settled outcome of
    [await retry(() => queryMonday(GET_BOARD_ITEMS_WITH_COLUMNS_QUERY(boardId, columnIds)))],
    read through [itemsData.boards[0].items_page.items] ([None] when any
    step of that path is falsy). *)
Variable items_response : string -> list string -> Result (option (list RawItem)).

(** [columnsData.boards.forEach(...)] filling [newAllBoardsData]. *)
Definition collect_boards (selectedBoardIds : list string) (bs : list BoardCols)
    : list (string * BoardInfo) :=
  fold_left
    (fun acc b =>
       if str_mem (bc_id b) selectedBoardIds
       then (bc_id b, mkBoardInfo (bc_id b) (bc_name b)
                        (match bc_columns b with Some cs => cs | None => [] end)) :: acc
       else acc)
    bs [].

(** [newAllBoardsData[boardId]?.name || `Board ${boardId}`]. *)
Definition board_name (abd : list (string * BoardInfo)) (b : string) : string :=
  match assoc_first b abd with
  | Some bi => if String.eqb (bi_name bi) "" then "Board " ++ b else bi_name bi
  | None => "Board " ++ b
  end.

Definition tag_item (abd : list (string * BoardInfo)) (b : string) (ri : RawItem) : Item :=
  mkItem (ri_id ri) (ri_name ri) (ri_column_values ri) b (board_name abd b).

(** [for (const boardId of selectedBoardIds) { ... }]. *)
Fixpoint fetch_items_loop (abd : list (string * BoardInfo)) (bs : list string)
    (selectedColumnIds : list string) (fetchedItems : list Item) : Result (list Item) :=
  match bs with
  | [] => Ok fetchedItems
  | b :: rest =>
      match selectedColumnIds with
      | [] => fetch_items_loop abd rest selectedColumnIds fetchedItems
      | _ :: _ =>
          match items_response b selectedColumnIds with
          | Err e => Err e
          | Ok None => fetch_items_loop abd rest selectedColumnIds fetchedItems
          | Ok (Some its) =>
              fetch_items_loop abd rest selectedColumnIds
                (fetchedItems ++ map (tag_item abd b) its)%list
          end
      end
  end.

(** The [catch (error)] block of [fetchBoardData]. *)
Definition report_error (e : JsError) (s : BoardState) : BoardState :=
  if includes (err_message e) "columns"
  then set_columnsError
         (Some ("Error loading columns: " ++ err_message e ++ ". Please check selected boards.")) s
  else set_itemsError (Some ("Error loading items: " ++ err_message e ++ ".")) s.

(** [fetchBoardData()], from call to settlement. *)
Definition fetchBoardData (selectedBoardIds selectedColumnIds : list string)
    (s : BoardState) : BoardState :=
  match selectedBoardIds with
  | [] => mkBoardState [] [] None None (isPolling s)
  | _ :: _ =>
      let s1 := set_itemsError None (set_columnsError None (set_isPolling true s)) in
      let s_end :=
        match columns_response with
        | Err e => report_error e s1
        | Ok boards =>
            let abd := collect_boards selectedBoardIds
                         (match boards with Some bs => bs | None => [] end) in
            let s2 := set_allBoardsData abd s1 in
            match fetch_items_loop abd selectedBoardIds selectedColumnIds [] with
            | Err e => report_error e s2
            | Ok fetched => set_boardItems fetched s2
            end
        end in
      set_isPolling false s_end
  end.

End Fetch.

(** [allAvailableColumnsForSelectedBoards]: a [Map] keyed by column id,
    as the list of its values in insertion order. *)
Definition add_column (columnsMap : list Column) (col : Column) : list Column :=
  if existsb (fun c => String.eqb (col_id c) (col_id col)) columnsMap
  then columnsMap
  else (columnsMap ++ [col])%list.

Definition allAvailableColumnsForSelectedBoards (selectedBoardIds : list string)
    (abd : list (string * BoardInfo)) : list Column :=
  fold_left
    (fun m boardId =>
       match assoc_first boardId abd with
       | Some bi => fold_left add_column (bi_columns bi) m
       | None => m
       end)
    selectedBoardIds [].

(* ------------------------------------------------------------------ *)
(** ** The background refresh loop *)

(** The flags the polling effect reads, the selections, and the number
    of [fetchBoardData] runs in flight. *)
Record PollState := mkPoll {
  ps_isAppLoading : bool;
  ps_isLoadingColumns : bool;
  ps_isLoadingItems : bool;
  ps_isPolling : bool;
  ps_boards : list string;
  ps_columns : list string;
  ps_in_flight : nat
}.

Inductive PollEvent : Type :=
| SettingsLoaded      (** [loadSettings] reaches [finally] *)
| ContentLoadStart    (** [loadContentData] starts [await fetchBoardData()] *)
| ContentLoadEnd      (** that [fetchBoardData()] settles *)
| BackgroundEnd       (** a [fetchBoardData()] started by a tick settles *)
| Tick.               (** the [setInterval] callback fires *)

Definition nonempty {A} (l : list A) : bool :=
  match l with [] => false | _ :: _ => true end.

(** The condition of the interval callback. *)
Definition poll_guard (s : PollState) : bool :=
  negb (ps_isAppLoading s) && negb (ps_isLoadingColumns s) && negb (ps_isLoadingItems s)
  && nonempty (ps_boards s) && nonempty (ps_columns s).

(** Calling [fetchBoardData()]: with boards selected it sets [isPolling]
    and issues its requests. *)
Definition start_fetch (s : PollState) : PollState :=
  if nonempty (ps_boards s)
  then mkPoll (ps_isAppLoading s) (ps_isLoadingColumns s) (ps_isLoadingItems s) true
         (ps_boards s) (ps_columns s) (S (ps_in_flight s))
  else s.

Definition end_fetch (s : PollState) : PollState :=
  mkPoll (ps_isAppLoading s) (ps_isLoadingColumns s) (ps_isLoadingItems s) false
    (ps_boards s) (ps_columns s) (pred (ps_in_flight s)).

Definition tick (s : PollState) : PollState :=
  if poll_guard s then start_fetch s else s.

Definition poll_step (ev : PollEvent) (s : PollState) : PollState :=
  match ev with
  | SettingsLoaded =>
      mkPoll false (ps_isLoadingColumns s) (ps_isLoadingItems s) (ps_isPolling s)
        (ps_boards s) (ps_columns s) (ps_in_flight s)
  | ContentLoadStart =>
      if ps_isAppLoading s then s
      else start_fetch (mkPoll false true true (ps_isPolling s)
                          (ps_boards s) (ps_columns s) (ps_in_flight s))
  | ContentLoadEnd =>
      let s' := if nonempty (ps_boards s) then end_fetch s else s in
      mkPoll (ps_isAppLoading s') false false (ps_isPolling s')
        (ps_boards s') (ps_columns s') (ps_in_flight s')
  | BackgroundEnd => end_fetch s
  | Tick => tick s
  end.

Definition poll_run (evs : list PollEvent) (s : PollState) : PollState :=
  fold_left (fun s ev => poll_step ev s) evs s.

(** The [App] state right after mount, with a selection restored. *)
Definition poll_init (boards columns : list string) : PollState :=
  mkPoll true false false false boards columns 0.

(* ------------------------------------------------------------------ *)
(** ** The view: filters and the date comparator of [TaskTable] *)

(** [{id, title, type}] of [columnsForTable] / [allBoardColumns]. *)
Record ColumnMeta := mkMeta {
  meta_id : string;
  meta_title : string;
  meta_type : string
}.

Definition virtualColumns : list ColumnMeta :=
  [mkMeta "item_name_column" "Task Name" "item_name";
   mkMeta "board_name_column" "Board" "board_link"].

Definition find_meta (c : string) (cols : list ColumnMeta) : option ColumnMeta :=
  find (fun m => String.eqb (meta_id m) c) cols.

(** [columnsForTable] (without the status options it attaches). *)
Definition columnsForTable (columnIds : list string) (allBoardColumns : list ColumnMeta)
    : list ColumnMeta :=
  fold_right
    (fun colId acc =>
       match find_meta colId virtualColumns with
       | Some vc => vc :: acc
       | None =>
           match find_meta colId allBoardColumns with
           | Some m => m :: acc
           | None => acc
           end
       end)
    [] columnIds.

Definition find_cv (c : string) (cvs : list ColumnValue) : option ColumnValue :=
  find (fun cv => String.eqb (cv_id cv) c) cvs.

(** [a || b] on strings that may be [null]. *)
Definition or_str (a : option string) (b : string) : string :=
  match a with
  | Some s => if String.eqb s "" then b else s
  | None => b
  end.

(** [String(itemColumnValue ? itemColumnValue.text : '').trim()]. *)
Definition status_text (cv : option ColumnValue) : string :=
  trim (match cv with
        | Some cv => match cv_text cv with Some t => t | None => "null" end
        | None => ""
        end).

Definition normalize_status (t : string) : string :=
  if String.eqb t "-" || String.eqb t "undefined" || String.eqb t "null" || String.eqb t ""
  then "No status" else t.

Definition is_person_type (ty : string) : bool :=
  String.eqb ty "person" || String.eqb ty "people".

(** [persons.filter(p => p.kind === 'person')]; [None] when a [p] is
    [null] and the callback throws. *)
Fixpoint filter_kind_person (l : list json) : option (list json) :=
  match l with
  | [] => Some []
  | p :: l' =>
      match get_prop p "kind", filter_kind_person l' with
      | inl _, _ => None
      | inr _, None => None
      | inr k, Some r =>
          Some (match k with
                | Some (JStr kd) => if String.eqb kd "person" then p :: r else r
                | _ => r
                end)
      end
  end.

(** The persons of a parsed people value: [parsedValue.personsAndTeams]
    when it is an array, else [parsedValue] itself when it is an array. *)
Definition persons_of (pv : json) : option (list json) :=
  let via_teams :=
    if truthy pv
    then match get_prop pv "personsAndTeams" with
         | inr (Some (JArr l)) => Some l
         | _ => None
         end
    else None in
  match via_teams with
  | Some l => filter_kind_person l
  | None => match pv with JArr l => filter_kind_person l | _ => Some [] end
  end.

(** [p.id && pred(String(p.id))]. *)
Definition person_id_satisfies (pred : string -> bool) (p : json) : bool :=
  match get_prop p "id" with
  | inr (Some idv) => truthy idv && pred (js_string idv)
  | _ => false
  end.

Definition blank_value (v : option string) : bool :=
  match v with
  | None => true
  | Some s => String.eqb s "" || String.eqb (trim s) ""
  end.

Section View.

(** [JSON.parse]: [None] when it throws. *)
Variable json_parse : string -> option json.

(** [persons.some(p => p.id && pred(String(p.id)))] over a column value,
    inside its [try { JSON.parse ... } catch { return false }]. *)
Definition value_has_person (pred : string -> bool) (v : string) : bool :=
  match json_parse v with
  | None => false
  | Some pv =>
      match persons_of pv with
      | None => false
      | Some ps => existsb (person_id_satisfies pred) ps
      end
  end.

(** The [person]/[people] case of the per-column filter. *)
Definition person_filter_passes (cv : option ColumnValue) (selectedValues : list string) : bool :=
  match cv with
  | Some cv =>
      match cv_value cv with
      | Some v => if blank_value (Some v) then str_mem "No user" selectedValues
                  else value_has_person (fun s => str_mem s selectedValues) v
      | None => str_mem "No user" selectedValues
      end
  | None => str_mem "No user" selectedValues
  end.

(** One [[columnId, selectedValues]] of [Object.entries(activeFilters)]. *)
Definition column_filter_passes (cols : list ColumnMeta) (item : Item)
    (entry : string * list string) : bool :=
  let '(columnId, selectedValues) := entry in
  if String.eqb columnId "current_user_filter" then true
  else
    match selectedValues with
    | [] => true
    | _ :: _ =>
        match find_meta columnId cols with
        | None => true
        | Some columnMeta =>
            let itemColumnValue := find_cv columnId (column_values item) in
            if String.eqb (meta_type columnMeta) "status"
            then str_mem (normalize_status (status_text itemColumnValue)) selectedValues
            else if is_person_type (meta_type columnMeta)
            then person_filter_passes itemColumnValue selectedValues
            else
              let itemValueText :=
                trim (match itemColumnValue with
                      | Some cv => or_str (cv_display_value cv) (or_str (cv_text cv) "")
                      | None => ""
                      end) in
              existsb (fun val => includes itemValueText val) selectedValues
        end
    end.

Definition isFilterByCurrentUserActive (activeFilters : list (string * list string)) : bool :=
  match assoc_first "current_user_filter" activeFilters with
  | Some l => str_mem "true" l
  | None => false
  end.

(** The "my tasks" test: some person column of the item names [currentUserId]. *)
Definition item_mentions_user (allBoardColumns : list ColumnMeta) (uid : json) (item : Item) : bool :=
  existsb
    (fun cv =>
       match find_meta (cv_id cv) allBoardColumns with
       | Some m =>
           if is_person_type (meta_type m)
           then match cv_value cv with
                | Some v => if blank_value (Some v) then false
                            else value_has_person (String.eqb (js_string uid)) v
                | None => false
                end
           else false
       | None => false
       end)
    (column_values item).

(** The filtering half of [filteredAndSortedBoardItems]. *)
Definition filter_items (allBoardColumns cols : list ColumnMeta)
    (activeFilters : list (string * list string)) (currentUserId : json)
    (boardItems : list Item) : list Item :=
  let filteredByCurrentUser :=
    if isFilterByCurrentUserActive activeFilters && truthy currentUserId
    then filter (item_mentions_user allBoardColumns currentUserId) boardItems
    else boardItems in
  filter (fun item => forallb (column_filter_passes cols item) activeFilters)
    filteredByCurrentUser.

End View.

(** [{...prevFilters, [columnId]: v}]. *)
Fixpoint obj_set (k : string) (v : list string) (o : list (string * list string))
    : list (string * list string) :=
  match o with
  | [] => [(k, v)]
  | (k', v') :: o' => if String.eqb k k' then (k, v) :: o' else (k', v') :: obj_set k v o'
  end.

(** [delete newFilters[columnId]]. *)
Fixpoint obj_del (k : string) (o : list (string * list string)) : list (string * list string) :=
  match o with
  | [] => []
  | (k', v') :: o' => if String.eqb k k' then o' else (k', v') :: obj_del k o'
  end.

(** [handleFilterChange(columnId, value, isChecked)] on [prevFilters]. *)
Definition handleFilterChange (columnId value : string) (isChecked : bool)
    (prevFilters : list (string * list string)) : list (string * list string) :=
  let currentColumnFilters :=
    match assoc_first columnId prevFilters with Some l => l | None => [] end in
  if isChecked
  then obj_set columnId (currentColumnFilters ++ [value])%list prevFilters
  else obj_set columnId (filter (fun v => negb (String.eqb v value)) currentColumnFilters)
         prevFilters.

(** [handleClearFilter(columnId)]. *)
Definition handleClearFilter (columnId : string) (prevFilters : list (string * list string)) :=
  obj_del columnId prevFilters.

(** The sort comparator of [filteredAndSortedBoardItems] when the sort
    column's [type] is ['date'].  [date_parse] is [Date.parse], the time
    value of [new Date(text)], with [None] for [NaN]; the comparator's
    result is a JavaScript number, [None] for [NaN]. *)
Definition date_time (date_parse : string -> option Z) (cv : option ColumnValue) : option Z :=
  match cv with
  | Some cv =>
      match cv_text cv with
      | Some t => if String.eqb t "" then Some 0%Z else date_parse t
      | None => Some 0%Z
      end
  | None => Some 0%Z
  end.

Definition date_comparator (date_parse : string -> option Z) (sortColumnId sortOrder : string)
    (a b : Item) : option Z :=
  let valueA := date_time date_parse (find_cv sortColumnId (column_values a)) in
  let valueB := date_time date_parse (find_cv sortColumnId (column_values b)) in
  let comparison :=
    match valueA, valueB with
    | Some x, Some y => Some (x - y)%Z
    | _, _ => None
    end in
  if String.eqb sortOrder "asc" then comparison else option_map Z.opp comparison.

(** [Date.parse] on the date-only ISO form [YYYY-MM-DD] (midnight UTC),
    which is what date columns display; other texts give [NaN] here. *)
Definition days_from_civil (y m d : Z) : Z :=
  let y' := if (m <=? 2)%Z then (y - 1)%Z else y in
  let era := (y' / 400)%Z in
  let yoe := (y' - era * 400)%Z in
  let doy := ((153 * (if (m >? 2)%Z then m - 3 else m + 9) + 2) / 5 + d - 1)%Z in
  let doe := (yoe * 365 + yoe / 4 - yoe / 100 + doy)%Z in
  (era * 146097 + doe - 719468)%Z.

Definition iso_date_parse (t : string) : option Z :=
  match list_ascii_of_string t with
  | [y1; y2; y3; y4; h1; m1; m2; h2; d1; d2] =>
      if Ascii.eqb h1 "-"%char && Ascii.eqb h2 "-"%char
         && forallb is_digit [y1; y2; y3; y4; m1; m2; d1; d2]
      then
        let y := digits_value [y1; y2; y3; y4] in
        let m := digits_value [m1; m2] in
        let d := digits_value [d1; d2] in
        if (1 <=? m)%Z && (m <=? 12)%Z && (1 <=? d)%Z && (d <=? 31)%Z
        then Some (days_from_civil y m d * 86400000)%Z
        else None
      else None
  | _ => None
  end.

(* ------------------------------------------------------------------ *)
(** ** Settings persistence: [loadSettings] and [saveSettingsAutomatically] *)

(** [response.data.value] of [monday.storage.instance.getItem('appSettings')]:
    a string, or a value of another type. *)
Inductive StoredValue : Type :=
| SVString (s : string)
| SVOther (v : json).

(** The key ['appSettings'] of the instance storage and how the storage
    API behaves: [st_get_error] when [getItem] rejects; [st_remove] is
    [None] when [removeItem] is not a function, [Some None] when it
    resolves and [Some (Some m)] when it rejects with message [m];
    [st_set_error] when [setItem] rejects. *)
Record Storage := mkStorage {
  st_value : option StoredValue;
  st_get_error : option string;
  st_remove : option (option string);
  st_set_error : option string
}.

Definition set_st_value (v : option StoredValue) (s : Storage) : Storage :=
  mkStorage v (st_get_error s) (st_remove s) (st_set_error s).

(** The [App] state that the settings effects read and write; the
    selections hold whatever JavaScript value was set. *)
Record SettingsState := mkSettings {
  selectedBoardIds : json;
  selectedColumnIds : json;
  isSidebarOpen : json;
  isAppLoading : bool;
  appError : option string
}.

Definition set_selectedBoardIds (v : json) (s : SettingsState) :=
  mkSettings v (selectedColumnIds s) (isSidebarOpen s) (isAppLoading s) (appError s).
Definition set_selectedColumnIds (v : json) (s : SettingsState) :=
  mkSettings (selectedBoardIds s) v (isSidebarOpen s) (isAppLoading s) (appError s).
Definition set_isSidebarOpen (v : json) (s : SettingsState) :=
  mkSettings (selectedBoardIds s) (selectedColumnIds s) v (isAppLoading s) (appError s).
Definition set_isAppLoading (v : bool) (s : SettingsState) :=
  mkSettings (selectedBoardIds s) (selectedColumnIds s) (isSidebarOpen s) v (appError s).
Definition set_appError (v : option string) (s : SettingsState) :=
  mkSettings (selectedBoardIds s) (selectedColumnIds s) (isSidebarOpen s) (isAppLoading s) v.

(** The initial [useState] values. *)
Definition initial_settings : SettingsState :=
  mkSettings (JArr []) (JArr []) (JBool false) true None.

(** The body of [try { ... }] after [JSON.parse] succeeded; [None] when a
    property read throws (the parsed value is [null]). *)
Definition apply_parsed (parsedSettings : json) (s : SettingsState) : option SettingsState :=
  match get_prop parsedSettings "selectedBoardIds" with
  | inl _ => None
  | inr b =>
      let s1 := match b with
                | Some v => if truthy v then set_selectedBoardIds v s else s
                | None => s
                end in
      let s2 := match get_prop parsedSettings "selectedColumnIds" with
                | inr (Some v) => if truthy v then set_selectedColumnIds v s1 else s1
                | _ => s1
                end in
      Some (match get_prop parsedSettings "isDialogOpen" with
            | inr (Some v) => set_isSidebarOpen v s2
            | _ =>
                match get_prop parsedSettings "isPopoverOpen" with
                | inr (Some v) => set_isSidebarOpen v s2
                | _ =>
                    match get_prop parsedSettings "isSidebarOpen" with
                    | inr (Some v) => set_isSidebarOpen v s2
                    | _ => s2
                    end
                end
            end)
  end.

(** The outer [catch (err)]: record the app error, then try to remove the
    entry once more (a failure there is only logged). *)
Definition load_failed (m : string) (s : SettingsState) (sto : Storage) : SettingsState * Storage :=
  let s' := set_appError (Some ("Error loading settings: " ++ m)) s in
  match st_remove sto with
  | Some None => (s', set_st_value None sto)
  | _ => (s', sto)
  end.

(** [await monday.storage.instance.removeItem('appSettings')] inside an
    inner [catch], guarded by the [typeof ... === 'function'] test. *)
Definition clear_faulty (s : SettingsState) (sto : Storage) : SettingsState * Storage :=
  match st_remove sto with
  | None => (s, sto)
  | Some None => (s, set_st_value None sto)
  | Some (Some m) => load_failed m s sto
  end.

Section Settings.

(** [JSON.parse] ([None] when it throws) and [JSON.stringify]. *)
Variable json_parse : string -> option json.
Variable json_stringify : json -> string.

(** [loadSettings()], from call to settlement. *)
Definition loadSettings (sto : Storage) (s : SettingsState) : SettingsState * Storage :=
  let s0 := set_appError None (set_isAppLoading true s) in
  let '(s_end, sto_end) :=
    match st_get_error sto with
    | Some m => load_failed m s0 sto
    | None =>
        match st_value sto with
        | None => (s0, sto)
        | Some (SVOther v) => if truthy v then clear_faulty s0 sto else (s0, sto)
        | Some (SVString settingsString) =>
            if String.eqb settingsString "" then (s0, sto)
            else
              match json_parse settingsString with
              | Some parsedSettings =>
                  match apply_parsed parsedSettings s0 with
                  | Some s1 => (s1, sto)
                  | None => clear_faulty s0 sto
                  end
              | None => clear_faulty s0 sto
              end
        end
    end in
  (set_isAppLoading false s_end, sto_end).

(** [settingsToSave]. *)
Definition settingsToSave (s : SettingsState) : json :=
  JObj [("selectedBoardIds", selectedBoardIds s);
        ("selectedColumnIds", selectedColumnIds s);
        ("isSidebarOpen", isSidebarOpen s)].

(** The saving effect: nothing while [isAppLoading]; otherwise
    [setItem('appSettings', JSON.stringify(settingsToSave))], a rejection
    turning into the toast message returned on the right. *)
Definition saveSettingsAutomatically (s : SettingsState) (sto : Storage)
    : Storage * option string :=
  if isAppLoading s then (sto, None)
  else
    match st_set_error sto with
    | None => (set_st_value (Some (SVString (json_stringify (settingsToSave s)))) sto, None)
    | Some m => (sto, Some ("Auto-save error: " ++ m))
    end.

End Settings.

(* ------------------------------------------------------------------ *)
(** ** Derived notions used by the statements *)

(** The error an attempt's failure raises inside [queryMonday]: a plain
    [Error] of the joined messages for an error list, the rejection itself
    otherwise. *)
Definition thrown_error (o : ApiOutcome) : JsError :=
  match o with
  | ApiErrors msgs => new_Error (join "; " msgs)
  | ApiReject e => e
  | ApiData _ => new_Error ""
  end.

(** The two tests [queryMonday] applies before retrying an attempt. *)
Definition qm_retries_outcome (o : ApiOutcome) : bool :=
  match o with
  | ApiData _ => false
  | ApiErrors msgs =>
      existsb is_rate_limit_message msgs || includes (join "; " msgs) "Rate limit passed"
  | ApiReject e => includes (err_message e) "Rate limit passed"
  end.

Definition is_failure (o : ApiOutcome) : bool :=
  match o with ApiData _ => false | _ => true end.

(** The delays [delay, 2*delay, ...] slept by [n] retries. *)
Fixpoint doubling (d : Z) (n : nat) : list Z :=
  match n with
  | O => []
  | S n' => d :: doubling (d * 2) n'
  end.



(* ================================================================== *)
(** ** Board and column selection ([App.jsx]) *)

Section Selection.

(** [handleBoardToggle(boardId)] on [prev]. *)
Definition handleBoardToggle (boardId : string) (prev : list string) : list string :=
  if str_mem boardId prev
  then filter (fun id => negb (String.eqb id boardId)) prev
  else (prev ++ [boardId])%list.

(** [handleColumnToggle(columnId)] on [prev]. *)
Definition handleColumnToggle (columnId : string) (prev : list string) : list string :=
  if str_mem columnId prev
  then filter (fun id => negb (String.eqb id columnId)) prev
  else (prev ++ [columnId])%list.

(** [handleSelectAllColumns()]: the new [selectedColumnIds]. *)
Definition handleSelectAllColumns (allAvailableColumns : list Column) : list string :=
  map col_id allAvailableColumns.

(** [handleDeselectAllColumns()]: the new [selectedColumnIds]. *)
Definition handleDeselectAllColumns : list string := [].

Definition boardNameColumn : Column := mkColumn "board_name_column" "Board" "board_name" None.
Definition itemNameColumn : Column := mkColumn "item_name_column" "Task Name" "item_name" None.

(** [columnsToDisplayInTable]. *)
Definition columnsToDisplayInTable (allAvailableColumns : list Column)
    (selectedColumnIds : list string) : list Column :=
  boardNameColumn :: itemNameColumn
    :: filter (fun col => str_mem (col_id col) selectedColumnIds) allAvailableColumns.

End Selection.

(** A column object as [TaskTable] reads it ([id], [title], [type]). *)
Definition column_meta (col : Column) : ColumnMeta :=
  mkMeta (col_id col) (col_title col) (col_type col).

(** The table's columns as [App] renders [TaskTable]:
    [columnIds={columnsToDisplayInTable.map(col => col.id)}] and
    [allBoardColumns={columnsToDisplayInTable}]. *)
Definition table_columns (allAvailableColumns : list Column) (selectedColumnIds : list string)
    : list ColumnMeta :=
  let shown := columnsToDisplayInTable allAvailableColumns selectedColumnIds in
  columnsForTable (map col_id shown) (map column_meta shown).

(** The two columns the table always starts with. *)
Definition table_head : list ColumnMeta :=
  [mkMeta "board_name_column" "Board" "board_link";
   mkMeta "item_name_column" "Task Name" "item_name"].

(* ------------------------------------------------------------------ *)
(** ** The boards list of the sidebar ([App.jsx]) *)

(** An element of [data.boards] of [GET_BOARDS_QUERY]. *)
Record BoardRef := mkBoardRef { br_id : string; br_name : string }.

(** The [App] state read and written by the sidebar's board handlers;
    [boards_requests] counts the [retry(() => queryMonday(GET_BOARDS_QUERY))]
    calls issued so far. *)
Record SidebarState := mkSidebar {
  allAvailableBoardsForSidebar : list BoardRef;
  isFetchingAllBoardsForSidebar : bool;
  allBoardsForSidebarFetchError : option string;
  sb_selectedBoardIds : list string;
  sb_isLoadingColumns : bool;
  sb_isSidebarOpen : bool;
  boards_requests : nat
}.

Definition set_sidebarBoards (v : list BoardRef) (s : SidebarState) :=
  mkSidebar v (isFetchingAllBoardsForSidebar s) (allBoardsForSidebarFetchError s)
    (sb_selectedBoardIds s) (sb_isLoadingColumns s) (sb_isSidebarOpen s) (boards_requests s).
Definition set_isFetchingAllBoards (v : bool) (s : SidebarState) :=
  mkSidebar (allAvailableBoardsForSidebar s) v (allBoardsForSidebarFetchError s)
    (sb_selectedBoardIds s) (sb_isLoadingColumns s) (sb_isSidebarOpen s) (boards_requests s).
Definition set_sidebarFetchError (v : option string) (s : SidebarState) :=
  mkSidebar (allAvailableBoardsForSidebar s) (isFetchingAllBoardsForSidebar s) v
    (sb_selectedBoardIds s) (sb_isLoadingColumns s) (sb_isSidebarOpen s) (boards_requests s).
Definition set_sb_selectedBoardIds (v : list string) (s : SidebarState) :=
  mkSidebar (allAvailableBoardsForSidebar s) (isFetchingAllBoardsForSidebar s)
    (allBoardsForSidebarFetchError s) v (sb_isLoadingColumns s) (sb_isSidebarOpen s)
    (boards_requests s).
Definition set_sb_isLoadingColumns (v : bool) (s : SidebarState) :=
  mkSidebar (allAvailableBoardsForSidebar s) (isFetchingAllBoardsForSidebar s)
    (allBoardsForSidebarFetchError s) (sb_selectedBoardIds s) v (sb_isSidebarOpen s)
    (boards_requests s).
Definition set_sb_isSidebarOpen (v : bool) (s : SidebarState) :=
  mkSidebar (allAvailableBoardsForSidebar s) (isFetchingAllBoardsForSidebar s)
    (allBoardsForSidebarFetchError s) (sb_selectedBoardIds s) (sb_isLoadingColumns s) v
    (boards_requests s).
Definition count_boards_request (s : SidebarState) :=
  mkSidebar (allAvailableBoardsForSidebar s) (isFetchingAllBoardsForSidebar s)
    (allBoardsForSidebarFetchError s) (sb_selectedBoardIds s) (sb_isLoadingColumns s)
    (sb_isSidebarOpen s) (S (boards_requests s)).

Section Sidebar.

(** The settled outcome of the [n]-th
    [await retry(() => queryMonday(GET_BOARDS_QUERY))], read through
    [data && data.boards] ([None] when falsy). *)
Variable boards_response : nat -> Result (option (list BoardRef)).

(** [fetchBoardsForSidebarSelection()], from call to settlement. *)
Definition fetchBoardsForSidebarSelection (s : SidebarState) : SidebarState :=
  if isFetchingAllBoardsForSidebar s then s
  else
    let s1 := set_sidebarFetchError None (set_isFetchingAllBoards true s) in
    let s2 :=
      match boards_response (boards_requests s1) with
      | Ok (Some bs) => set_sidebarBoards bs s1
      | Ok None => s1
      | Err e => set_sidebarFetchError (Some ("Error loading all boards: " ++ err_message e)) s1
      end in
    set_isFetchingAllBoards false (count_boards_request s2).

(** [handleSelectAllBoards()], from call to settlement. *)
Definition handleSelectAllBoards (s : SidebarState) : SidebarState :=
  match allAvailableBoardsForSidebar s with
  | _ :: _ => set_sb_selectedBoardIds (map br_id (allAvailableBoardsForSidebar s)) s
  | [] =>
      let s1 := set_sidebarFetchError None (set_sb_isLoadingColumns true s) in
      let s2 :=
        match boards_response (boards_requests s1) with
        | Ok (Some bs) => set_sidebarBoards bs (set_sb_selectedBoardIds (map br_id bs) s1)
        | Ok None => s1
        | Err e =>
            set_sidebarFetchError (Some ("Error selecting all boards: " ++ err_message e)) s1
        end in
      set_sb_isLoadingColumns false (count_boards_request s2)
  end.

(** [toggleSidebar()]: the updater flips [isSidebarOpen] and, when it
    opens the sidebar with no boards loaded and no fetch running, starts
    [fetchBoardsForSidebarSelection()]. *)
Definition toggleSidebar (s : SidebarState) : SidebarState :=
  let newSidebarState := negb (sb_isSidebarOpen s) in
  let s1 := set_sb_isSidebarOpen newSidebarState s in
  if newSidebarState && negb (nonempty (allAvailableBoardsForSidebar s))
     && negb (isFetchingAllBoardsForSidebar s)
  then fetchBoardsForSidebarSelection s1
  else s1.

End Sidebar.

(* ------------------------------------------------------------------ *)
(** ** Status changes and item renaming ([TaskTable.jsx]) *)

(** An entry of [columnMeta.statusOptions] as [handleStatusChange] reads it. *)
Record StatusOption := mkStatusOption { opt_id : string; opt_label : string }.

(** [handleStatusChange(selectedOption, item, columnMeta)]: the arguments
    [(item.boardId, item.id, columnMeta.id, v)] of the
    [UPDATE_COLUMN_VALUE_QUERY] it sends, [v] being the object whose
    [JSON.stringify] is [valueToSend]; [None] when no update is needed. *)
Definition handleStatusChange (selectedOption : option StatusOption) (item : Item)
    (columnMeta : ColumnMeta) : option (string * string * string * json) :=
  let selectedStatusText :=
    match selectedOption with Some o => opt_label o | None => "" end in
  let is_clear :=
    match selectedOption with Some o => String.eqb (opt_id o) "clear" | None => false end in
  let valueToSend :=
    if is_clear then JObj [("label", JStr "")] else JObj [("label", JStr selectedStatusText)] in
  let normalizedCurrentStatusText :=
    normalize_status (status_text (find_cv (meta_id columnMeta) (column_values item))) in
  let needsUpdate :=
    if is_clear then negb (String.eqb normalizedCurrentStatusText "No status")
    else negb (String.eqb (trim selectedStatusText) normalizedCurrentStatusText) in
  if needsUpdate then Some (boardId item, item_id item, meta_id columnMeta, valueToSend)
  else None.

(** The inline name editor: [editingItemId] and [editedItemName]. *)
Record EditState := mkEdit { editingItemId : option string; editedItemName : string }.

Definition edit0 : EditState := mkEdit None "".

(** [handleDoubleClick(itemId, currentName)]. *)
Definition handleDoubleClick (itemId currentName : string) (st : EditState) : EditState :=
  mkEdit (Some itemId) currentName.

(** [handleSaveEdit(itemId, boardId, currentName)]: the new editor state
    and the arguments [(boardId, itemId, newName)] of the
    [UPDATE_ITEM_NAME_QUERY] it sends, if any (the editor is reset whether
    that request succeeds or fails). *)
Definition handleSaveEdit (itemId boardId currentName : string) (st : EditState)
    : EditState * option (string * string * string) :=
  match editingItemId st with
  | Some e =>
      if String.eqb e itemId then
        let t := trim (editedItemName st) in
        (edit0,
         if negb (String.eqb t "") && negb (String.eqb t currentName)
         then Some (boardId, itemId, t) else None)
      else (st, None)
  | None => (st, None)
  end.

(** [handleKeyDown(e, itemId, boardId, currentName)] for [e.key = key]. *)
Definition handleKeyDown (key itemId boardId currentName : string) (st : EditState)
    : EditState * option (string * string * string) :=
  if String.eqb key "Enter" then handleSaveEdit itemId boardId currentName st
  else if String.eqb key "Escape" then (edit0, None)
  else (st, None).

(** The editor events the rendered table can raise: the input's [onBlur]
    and the save button ([handleSaveEdit]), its [onKeyDown], and its
    [onChange].  The name text's [onDoubleClick] opens the item card;
    nothing in the file calls [handleDoubleClick]. *)
Inductive EditEvent : Type :=
| EvSave (itemId boardId currentName : string)
| EvKey (key itemId boardId currentName : string)
| EvChange (v : string).

Definition edit_step (ev : EditEvent) (st : EditState)
    : EditState * option (string * string * string) :=
  match ev with
  | EvSave i b n => handleSaveEdit i b n st
  | EvKey k i b n => handleKeyDown k i b n st
  | EvChange v => (mkEdit (editingItemId st) v, None)
  end.

(** A run of editor events: the final state and the rename requests sent. *)
Fixpoint edit_run (evs : list EditEvent) (st : EditState)
    : EditState * list (string * string * string) :=
  match evs with
  | [] => (st, [])
  | ev :: evs' =>
      let '(st1, r) := edit_step ev st in
      let '(st2, rs) := edit_run evs' st1 in
      (st2, match r with Some q => q :: rs | None => rs end)
  end.

(** The item-name cell's text:
    [item.name || 'Untitled'], unwrapped when it matches
    [/^{\"text\"=>\"(.*?)\"}$/] with a non-empty group.  Strings are read
    as sequences of code points below 256, so [.] fails exactly on the
    line terminators [\n] and [\r]. *)
Definition ruby_prefix : string :=
  String "{" (String dq ("text" ++ String dq ("=>" ++ String dq EmptyString))).
Definition ruby_suffix : string := String dq "}".

Definition is_line_terminator (c : ascii) : bool :=
  (nat_of_ascii c =? 10)%nat || (nat_of_ascii c =? 13)%nat.

Definition ruby_hash_group (s : string) : option string :=
  if prefixb ruby_prefix s
     && (12 <=? String.length s)%nat
     && String.eqb (substring (String.length s - 2) 2 s) ruby_suffix
  then
    let g := substring 10 (String.length s - 12) s in
    if existsb is_line_terminator (list_ascii_of_string g) then None else Some g
  else None.

Definition display_item_name (name : string) : string :=
  let currentItemName := if String.eqb name "" then "Untitled" else name in
  match ruby_hash_group currentItemName with
  | Some g => if String.eqb g "" then currentItemName else g
  | None => currentItemName
  end.

(* ------------------------------------------------------------------ *)
(** ** The user cache and its prefetch ([TaskTable.jsx]) *)

(** [String(v)], arrays included ([null] elements print as empty). *)
Fixpoint js_to_string (v : json) : string :=
  match v with
  | JArr l => join "," (map (fun x => match x with JNull => "" | _ => js_to_string x end) l)
  | _ => js_string v
  end.

(** [{...o, [k]: v}]. *)
Fixpoint obj_put {A} (k : string) (v : A) (o : list (string * A)) : list (string * A) :=
  match o with
  | [] => [(k, v)]
  | (k', v') :: o' => if String.eqb k k' then (k, v) :: o' else (k', v') :: obj_put k v o'
  end.

Definition unknown_user (id : json) : json :=
  JObj [("id", id); ("name", JStr "Unknown"); ("photo_original", JNull)].

(** [cachedUsers] and the [GET_USER_DETAILS_QUERY] requests issued (by id). *)
Record UserCache := mkUserCache {
  cachedUsers : list (string * json);
  user_requests : list json
}.

(** [cachedUsers[k]] tested for truthiness. *)
Definition cached (k : string) (c : list (string * json)) : bool :=
  truthy_opt (assoc_first k c).

Section Users.

(** The settled outcome of [await queryMonday(GET_USER_DETAILS_QUERY(userId))],
    read through [data && data.users && data.users.length > 0] and
    [data.users[0]] ([None] when the test fails). *)
Variable user_response : json -> Result (option json).

(** [fetchAndCacheUser(userId)]: the user it resolves to and the cache. *)
Definition fetchAndCacheUser (userId : json) (c : UserCache) : json * UserCache :=
  if negb (truthy userId) then (unknown_user JNull, c)
  else
    let k := js_to_string userId in
    match assoc_first k (cachedUsers c) with
    | Some u => if truthy u then (u, c) else
        let rq := (user_requests c ++ [userId])%list in
        match user_response userId with
        | Ok (Some user) => (user, mkUserCache (obj_put k user (cachedUsers c)) rq)
        | _ => (unknown_user userId, mkUserCache (obj_put k (unknown_user userId) (cachedUsers c)) rq)
        end
    | None =>
        let rq := (user_requests c ++ [userId])%list in
        match user_response userId with
        | Ok (Some user) => (user, mkUserCache (obj_put k user (cachedUsers c)) rq)
        | _ => (unknown_user userId, mkUserCache (obj_put k (unknown_user userId) (cachedUsers c)) rq)
        end
    end.

End Users.

Section Prefetch.

Variable json_parse : string -> option json.

(** The ids the prefetch effect passes to [fetchAndCacheUser] for one
    column value: the person ids of a [person]/[people] column's
    non-blank, parseable value that [cachedUsers] lacks. *)
Definition cv_person_ids (allBoardColumns : list ColumnMeta) (cachedUsers : list (string * json))
    (cv : ColumnValue) : list json :=
  match find_meta (cv_id cv) allBoardColumns with
  | Some columnMeta =>
      if is_person_type (meta_type columnMeta) then
        match cv_value cv with
        | Some v =>
            if blank_value (Some v) then []
            else
              match json_parse v with
              | None => []
              | Some parsedValue =>
                  match persons_of parsedValue with
                  | None => []
                  | Some persons =>
                      flat_map
                        (fun p => match get_prop p "id" with
                                  | inr (Some idv) =>
                                      if truthy idv && negb (cached (js_to_string idv) cachedUsers)
                                      then [idv] else []
                                  | _ => []
                                  end)
                        persons
                  end
              end
        | None => []
        end
      else []
  | None => []
  end.

(** One run of the prefetch [useEffect]: the ids [fetchAndCacheUser] is
    called with, in order.  The calls are not awaited and all read the
    same [cachedUsers], so each of them issues its request. *)
Definition prefetch_user_ids (allBoardColumns : list ColumnMeta)
    (cachedUsers : list (string * json)) (boardItems : list Item) : list json :=
  flat_map (fun item => flat_map (cv_person_ids allBoardColumns cachedUsers) (column_values item))
    boardItems.

End Prefetch.

(* ------------------------------------------------------------------ *)
(** ** The account URL ([TaskTable.jsx]) *)

(** [v && v.k1 && ... && v.kn] tested for truthiness, and its value. *)
Fixpoint path_value (v : json) (ks : list string) : option json :=
  if truthy v then
    match ks with
    | [] => Some v
    | k :: ks' => match get_prop v k with
                  | inr (Some w) => path_value w ks'
                  | _ => None
                  end
    end
  else None.

(** [fetchMondayBaseUrl()]: [context] and [slug_response] are the settled
    [monday.get('context')] and [monday.api(`query { account { slug } }`)];
    the result is the new [mondayBaseUrl] ([None] for [undefined]). *)
Definition fetchMondayBaseUrl (context slug_response : Result json) (mondayBaseUrl : option json)
    : option json :=
  match context with
  | Err _ => mondayBaseUrl
  | Ok ctx =>
      match path_value ctx ["data"; "accountUrl"] with
      | Some _ =>
          match get_prop ctx "data" with
          | inr (Some d) =>
              match get_prop d "account" with
              | inr (Some acc) =>
                  match get_prop acc "url" with
                  | inr u => u
                  | inl _ => mondayBaseUrl
                  end
              | _ => mondayBaseUrl
              end
          | _ => mondayBaseUrl
          end
      | None =>
          match slug_response with
          | Err _ => mondayBaseUrl
          | Ok response =>
              match path_value response ["data"; "account"; "slug"] with
              | Some accountSlug =>
                  Some (JStr ("https://" ++ js_to_string accountSlug ++ ".monday.com"))
              | None => mondayBaseUrl
              end
          end
      end
  end.

Definition initial_base_url : option json := Some (JStr "https://monday.com").

(* ------------------------------------------------------------------ *)
(** ** Query text ([mondayQueries.js]) *)

(** [columnIds.map(id => `"${id}"`).join(',')] inside
    [GET_BOARD_ITEMS_WITH_COLUMNS_QUERY]. *)
Definition column_ids_list (columnIds : list string) : string :=
  join "," (map (fun id => String dq (id ++ String dq EmptyString)) columnIds).

(** Reading such a list back: split at [,] and drop the two quotes. *)
Fixpoint split_comma_acc (acc : string) (s : string) : list string :=
  match s with
  | EmptyString => [acc]
  | String c s' =>
      if (nat_of_ascii c =? 44)%nat then acc :: split_comma_acc EmptyString s'
      else split_comma_acc (acc ++ String c EmptyString) s'
  end.

Definition unquote (s : string) : string :=
  substring 1 (String.length s - 2) s.

Definition read_column_ids (l : string) : list string :=
  map unquote (split_comma_acc EmptyString l).

(* ------------------------------------------------------------------ *)
(** ** Status colours ([TaskTable.jsx]) *)

(** [toLowerCase()] on one 8-bit code unit (Latin-1): the capitals
    A to Z (65 to 90) and the Latin-1 capitals 192 to 214 and 216 to 222
    move up by 32; every other code unit of the range is its own lower
    case. *)
Definition to_lower_ascii (c : ascii) : ascii :=
  let n := nat_of_ascii c in
  if ((65 <=? n)%nat && (n <=? 90)%nat) || ((192 <=? n)%nat && (n <=? 214)%nat)
     || ((216 <=? n)%nat && (n <=? 222)%nat)
  then ascii_of_nat (n + 32) else c.

(** [s.toLowerCase()]. *)
Definition to_lower (s : string) : string :=
  string_of_list_ascii (map to_lower_ascii (list_ascii_of_string s)).

(** The style object [getStatusColorStyle] returns ([None]: no [border]). *)
Record StatusStyle := mkStatusStyle {
  backgroundColor : string;
  color : string;
  border : option string
}.

(** [getStatusColorStyle(statusText)]. *)
Definition getStatusColorStyle (statusText : json) : StatusStyle :=
  let lowerCaseStatus :=
    to_lower (trim (if truthy statusText then js_to_string statusText else "")) in
  if String.eqb lowerCaseStatus "done" || String.eqb lowerCaseStatus "completed"
  then mkStatusStyle "#00c875" "#fff" None
  else if String.eqb lowerCaseStatus "working on it" || String.eqb lowerCaseStatus "in progress"
          || String.eqb lowerCaseStatus "working"
  then mkStatusStyle "#fdab3d" "#fff" None
  else if String.eqb lowerCaseStatus "stuck" || String.eqb lowerCaseStatus "blocked"
  then mkStatusStyle "#e2445c" "#fff" None
  else if String.eqb lowerCaseStatus "not started" || String.eqb lowerCaseStatus "ready"
  then mkStatusStyle "#a1a1a1" "#fff" None
  else if String.eqb lowerCaseStatus "" || String.eqb lowerCaseStatus "undefined"
          || String.eqb lowerCaseStatus "null" || String.eqb lowerCaseStatus "-"
  then mkStatusStyle "#c4c4c4" "#323338" (Some "1px solid #b0b0b0")
  else mkStatusStyle "#e0e0e0" "#323338" (Some "1px solid #d0d0d0").

(* ================================================================== *)
(** ** Example data *)

Definition item_old : Item := mkItem "i0" "Old" [] "b0" "Board 0".
Definition raw_b1 : RawItem := mkRawItem "i1" "Task 1" [mkCV "c1" (Some "x") None None].

(** The columns of the selected boards, board by board, as the merge
    visits them. *)
Definition selected_columns (selectedBoardIds : list string) (abd : list (string * BoardInfo))
    : list Column :=
  List.concat (map (fun b => match assoc_first b abd with
                             | Some bi => bi_columns bi
                             | None => []
                             end) selectedBoardIds).

Definition has_col_id (c : string) (col : Column) : bool := String.eqb (col_id col) c.

Definition status_b1 : Column := mkColumn "status" "Status (board 1)" "status" None.
Definition status_b2 : Column := mkColumn "status" "Status (board 2)" "status" None.

Definition status_meta : ColumnMeta := mkMeta "status" "Status" "status".
Definition item_no_status : Item :=
  mkItem "i1" "Task" [mkCV "status" (Some "") None None] "b1" "Board".

(** An absent, [null] or empty date text: [!(columnValue && columnValue.text)]. *)
Definition absent_date (cv : option ColumnValue) : bool :=
  match cv with
  | None => true
  | Some cv => match cv_text cv with None => true | Some t => String.eqb t "" end
  end.

Definition item_undated : Item := mkItem "a" "Undated" [] "b1" "Board".
Definition item_1960 : Item :=
  mkItem "p" "Old" [mkCV "due" (Some "1960-05-01") None None] "b1" "Board".

Definition saved_view : SettingsState :=
  mkSettings (JArr [JStr "b1"; JStr "b2"]) (JArr [JStr "status"]) (JBool true) false None.
Definition empty_storage : Storage := mkStorage None None (Some None) None.

Definition corrupt_storage : Storage :=
  mkStorage (Some (SVString "{broken")) None (Some None) None.

Definition done_meta : ColumnMeta := mkMeta "status" "Status" "status".
Definition item_done : Item :=
  mkItem "i2" "Shipped" [mkCV "status" (Some "Done") None None] "b1" "Board".

Definition board_columns (abd : list (string * BoardInfo)) (b : string) : list Column :=
  match assoc_first b abd with Some bi => bi_columns bi | None => [] end.

Definition not_reserved_id (col : Column) : bool :=
  negb (String.eqb (col_id col) "board_name_column") && negb (String.eqb (col_id col) "item_name_column").

Definition abd_two : list (string * BoardInfo) :=
  [("b1", mkBoardInfo "b1" "One" [mkColumn "status" "Status" "status" None;
                                  mkColumn "date4" "Due" "date" None]);
   ("b2", mkBoardInfo "b2" "Two" [mkColumn "status" "State" "status" None;
                                  mkColumn "person" "Owner" "people" None])].

Definition person_meta : ColumnMeta := mkMeta "person" "Owner" "people".

Definition person_item : Item :=
  mkItem "i5" "Task 5"
    [mkCV "person" None
       (Some (stringify (JObj [("personsAndTeams", JArr [JObj [("id", JNum 7); ("kind", JStr "person")]])])))
       None] "b1" "Board 1".

(** A second task assigned to the same person. *)
Definition person_item_6 : Item :=
  mkItem "i6" "Task 6"
    [mkCV "person" None
       (Some (stringify (JObj [("personsAndTeams", JArr [JObj [("id", JNum 7); ("kind", JStr "person")]])])))
       None] "b1" "Board 1".

(** Every call answered with both a rate-limit and a concurrency-limit
    error. *)
Definition api_always_limited : nat -> ApiOutcome :=
  fun _ => ApiErrors ["Rate limit exceeded"; "Concurrency limit exceeded"].

Definition no_comma (s : string) : Prop :=
  forall c, In c (list_ascii_of_string s) -> nat_of_ascii c <> 44%nat.

Definition quote_id (id : string) : string := String dq (id ++ String dq EmptyString).

Definition no_lead (l : list ascii) : Prop :=
  match l with c :: _ => is_js_space c = false | [] => True end.

(** * Properties *)

(* ------------------------------------------------------------------ *)
(** ** The executor *)

Lemma qm_attempts_mono : forall api r d s,
  (S (attempts s) <= attempts (snd (queryMonday api r d s)))%nat.
Proof.
  intros api r. induction r as [|r IH]; intros d s; simpl.
  - destruct (api (attempts s)); simpl; lia.
  - destruct (api (attempts s)) as [dd|msgs|e]; simpl.
    + lia.
    + destruct (existsb is_rate_limit_message msgs).
      * specialize (IH (d * 2)%Z (sleep d (mkExec (S (attempts s)) (sleeps s)))).
        simpl in IH. lia.
      * destruct (includes (join "; " msgs) "Rate limit passed"); simpl; [|lia].
        specialize (IH (d * 2)%Z (sleep d (mkExec (S (attempts s)) (sleeps s)))).
        simpl in IH. lia.
    + destruct (includes (err_message e) "Rate limit passed"); simpl; [|lia].
      specialize (IH (d * 2)%Z (sleep d (mkExec (S (attempts s)) (sleeps s)))).
      simpl in IH. lia.
Qed.



Lemma qm_all_rate_limited : forall api,
  (forall n, qm_retries_outcome (api n) = true) ->
  forall r d s,
    queryMonday api r d s =
    (Err (thrown_error (api (attempts s + r)%nat)),
     mkExec (attempts s + S r) (sleeps s ++ doubling d r)%list).
Proof.
  intros api H r. induction r as [|r IH]; intros d s; simpl.
  - rewrite Nat.add_0_r, Nat.add_1_r, app_nil_r.
    specialize (H (attempts s)).
    destruct (api (attempts s)); simpl in *; try discriminate; reflexivity.
  - specialize (H (attempts s)) as Hs.
    assert (Hrec : queryMonday api r (d * 2) (sleep d (mkExec (S (attempts s)) (sleeps s))) =
             (Err (thrown_error (api (attempts s + S r)%nat)),
              mkExec (attempts s + S (S r)) (sleeps s ++ d :: doubling (d * 2) r)%list)).
    { rewrite IH. simpl. rewrite <- app_assoc. simpl.
      replace (S (attempts s + r)) with (attempts s + S r)%nat by lia.
      replace (S (attempts s + S r)) with (attempts s + S (S r))%nat by lia.
      reflexivity. }
    destruct (api (attempts s)) as [dd|msgs|e]; simpl in Hs; try discriminate.
    + destruct (existsb is_rate_limit_message msgs); simpl in Hs.
      * exact Hrec.
      * rewrite Hs. exact Hrec.
    + rewrite Hs. exact Hrec.
Qed.

(** First attempt classified by [queryMonday] and then by [retry]. *)
Lemma execute_first_fatal : forall api R D F s,
  is_failure (api (attempts s)) = true ->
  qm_retries_outcome (api (attempts s)) = false ->
  is_transient (thrown_error (api (attempts s))) = false ->
  forall r d,
  retry (queryMonday api r d) R D F s =
  (Err (thrown_error (api (attempts s))), mkExec (S (attempts s)) (sleeps s)).
Proof.
  intros api R D F s Hf Hq Ht r d.
  assert (Hqm : queryMonday api r d s =
                (Err (thrown_error (api (attempts s))), mkExec (S (attempts s)) (sleeps s))).
  { destruct r; simpl; destruct (api (attempts s)) as [dd|msgs|e]; simpl in *;
      try discriminate.
    - reflexivity.
    - reflexivity.
    - apply orb_false_elim in Hq as [H1 H2]. rewrite H1, H2. reflexivity.
    - rewrite Hq. reflexivity. }
  destruct R; simpl; rewrite Hqm; [reflexivity|]. rewrite Ht. reflexivity.
Qed.

(** [C1] (amended). A query whose every attempt is rate-limited is
    attempted exactly [retries + 1] times by [queryMonday], which sleeps
    [delay], [2*delay], ... in between and then rejects with the last
    attempt's error as it is: no [ExhaustedRetries] tag is attached. At the
    call sites ([retry] around [queryMonday] with [retries = 3],
    [delay = 500]) the same four attempts are made whenever that last
    error is not one [retry] classifies as transient. A query whose first
    attempt fails with an error neither layer retries is attempted once
    and that error is rethrown. *)
Theorem C1_retry_budget :
  (forall api, (forall n, qm_retries_outcome (api n) = true) ->
   forall retries delay s,
     queryMonday api retries delay s =
     (Err (thrown_error (api (attempts s + retries)%nat)),
      mkExec (attempts s + S retries) (sleeps s ++ doubling delay retries)%list)) /\
  (forall api, (forall n, qm_retries_outcome (api n) = true) ->
   forall s, is_transient (thrown_error (api (attempts s + 3)%nat)) = false ->
     execute api s =
     (Err (thrown_error (api (attempts s + 3)%nat)),
      mkExec (attempts s + 4) (sleeps s ++ [500; 1000; 2000]%Z)%list)) /\
  (forall api s, is_failure (api (attempts s)) = true ->
     qm_retries_outcome (api (attempts s)) = false ->
     is_transient (thrown_error (api (attempts s))) = false ->
     execute api s =
     (Err (thrown_error (api (attempts s))), mkExec (S (attempts s)) (sleeps s))).
Proof.
  split; [|split].
  - intros api H. apply qm_all_rate_limited. exact H.
  - intros api H s Ht. unfold execute. cbn [retry].
    rewrite (qm_all_rate_limited api H 3 500 s). rewrite Ht. reflexivity.
  - intros api s Hf Hq Ht. unfold execute. apply execute_first_fatal; assumption.
Qed.

Lemma C1_retry_budget_witness :
  (forall n, qm_retries_outcome ((fun _ : nat => ApiErrors ["Rate limit exceeded"]) n) = true) /\
  queryMonday (fun _ : nat => ApiErrors ["Rate limit exceeded"]) 3 500 exec0 =
  (Err (new_Error "Rate limit exceeded"), mkExec 4 [500; 1000; 2000]%Z).
Proof.
  assert (H : forall n, qm_retries_outcome ((fun _ : nat => ApiErrors ["Rate limit exceeded"]) n) = true)
    by (intros; vm_compute; reflexivity).
  split; [exact H|].
  exact (proj1 C1_retry_budget (fun _ : nat => ApiErrors ["Rate limit exceeded"]) H 3 500%Z exec0).
Defined.

(** [C1] as stated fails: after exhausting its attempts on a rate-limited
    query the executor rejects with a plain [Error] of the platform's
    message, not with an error tagged [ExhaustedRetries]. *)
Lemma C1_no_exhausted_tag :
  execute (fun _ : nat => ApiErrors ["Rate limit exceeded"]) exec0 =
  (Err (mkError "Error" "Rate limit exceeded" None None), mkExec 4 [500; 1000; 2000]%Z) /\
  err_name (mkError "Error" "Rate limit exceeded" None None) <> "ExhaustedRetries".
Proof. split; [vm_compute; reflexivity | discriminate]. Qed.





Lemma retry_mono : forall fn R D F s,
  (forall s', (S (attempts s') <= attempts (snd (fn s')))%nat) ->
  (attempts (snd (fn s)) <= attempts (snd (retry fn R D F s)))%nat.
Proof.
  intros fn R. induction R as [|R IH]; intros D F s Hm; simpl.
  - destruct (fn s) as [[a|e] s']; simpl; lia.
  - destruct (fn s) as [[a|e] s'] eqn:E; simpl; [lia|].
    destruct (is_transient e); simpl; [|lia].
    specialize (IH (D * F)%Z F (sleep D s') Hm).
    specialize (Hm (sleep D s')). simpl in Hm. lia.
Qed.

Lemma execute_attempts_mono : forall api s,
  (S (attempts s) <= attempts (snd (execute api s)))%nat.
Proof.
  intros api s. unfold execute.
  pose proof (retry_mono (queryMonday api 3 500) 5 2000 2 s (qm_attempts_mono api 3 500)).
  pose proof (qm_attempts_mono api 3 500 s). lia.
Qed.




(* ------------------------------------------------------------------ *)
(** ** The aggregation fetcher *)

Lemma fetch_items_loop_fails : forall items_response abd bs cols acc b e,
  In b bs -> cols <> [] -> items_response b cols = Err e ->
  exists e', fetch_items_loop items_response abd bs cols acc = Err e'.
Proof.
  intros items_response abd bs cols. induction bs as [|b0 bs IH]; intros acc b e Hin Hc He.
  - destruct Hin.
  - destruct cols as [|c cs]; [congruence|]. simpl.
    destruct Hin as [<-|Hin].
    + rewrite He. eauto.
    + destruct (items_response b0 (c :: cs)) as [[its|]|e0].
      * eapply IH; eauto.
      * eapply IH; eauto.
      * eauto.
Qed.

Lemma report_error_boardItems : forall e s, boardItems (report_error e s) = boardItems s.
Proof. intros e s. unfold report_error. destruct (includes _ _); reflexivity. Qed.

Lemma report_error_sets : forall e s,
  columnsError (report_error e s) <> None \/ itemsError (report_error e s) <> None.
Proof.
  intros e s. unfold report_error. destruct (includes _ _); simpl; [left|right]; discriminate.
Qed.

(** [C2]. When some selected board's item fetch fails (its executor run
    rejects) and columns are selected, the refresh ends in an error state
    and [boardItems] keeps its previous value: items fetched for earlier
    boards are dropped, never written. *)
Theorem C2_fail_fast :
  forall columns_response items_response selectedBoardIds selectedColumnIds s b e,
    In b selectedBoardIds ->
    selectedColumnIds <> [] ->
    items_response b selectedColumnIds = Err e ->
    let s' := fetchBoardData columns_response items_response
                selectedBoardIds selectedColumnIds s in
    boardItems s' = boardItems s /\
    (columnsError s' <> None \/ itemsError s' <> None) /\
    isPolling s' = false.
Proof.
  intros cr ir sel cols s b e Hin Hc He s'. subst s'.
  unfold fetchBoardData.
  destruct sel as [|b0 sel']; [destruct Hin|].
  destruct cr as [boards|e0].
  - destruct (fetch_items_loop_fails ir
                (collect_boards (b0 :: sel') (match boards with Some bs => bs | None => [] end))
                (b0 :: sel') cols [] b e Hin Hc He) as [e' He'].
    rewrite He'. simpl.
    rewrite report_error_boardItems. split; [reflexivity|split; [|reflexivity]].
    apply report_error_sets.
  - simpl. rewrite report_error_boardItems. split; [reflexivity|split; [|reflexivity]].
    apply report_error_sets.
Qed.

Lemma C2_fail_fast_witness :
  In "b2" ["b1"; "b2"] /\ ["c1"] <> [] /\
  (fun b (_ : list string) => if String.eqb b "b1" then Ok (Some [raw_b1])
                             else Err (new_Error "Concurrency limit exceeded")) "b2" ["c1"]
    = Err (new_Error "Concurrency limit exceeded") /\
  boardItems (fetchBoardData (Ok (Some [mkBoardCols "b1" "B1" None; mkBoardCols "b2" "B2" None]))
                (fun b _ => if String.eqb b "b1" then Ok (Some [raw_b1])
                            else Err (new_Error "Concurrency limit exceeded"))
                ["b1"; "b2"] ["c1"] (mkBoardState [] [item_old] None None false))
  = [item_old].
Proof.
  split; [simpl; auto|split; [discriminate|split; [reflexivity|]]].
  exact (proj1 (C2_fail_fast (Ok (Some [mkBoardCols "b1" "B1" None; mkBoardCols "b2" "B2" None]))
                 (fun b _ => if String.eqb b "b1" then Ok (Some [raw_b1])
                             else Err (new_Error "Concurrency limit exceeded"))
                 ["b1"; "b2"] ["c1"] (mkBoardState [] [item_old] None None false) "b2"
                 (new_Error "Concurrency limit exceeded")
                 (or_intror (or_introl eq_refl)) ltac:(discriminate) eq_refl)).
Defined.

Lemma find_app : forall {A} (f : A -> bool) l1 l2,
  find f (l1 ++ l2)%list =
  match find f l1 with Some x => Some x | None => find f l2 end.
Proof.
  intros A f l1 l2. induction l1 as [|a l1 IH]; simpl; [reflexivity|].
  destruct (f a); [reflexivity|exact IH].
Qed.

Lemma find_add_column : forall c m col,
  find (has_col_id c) (add_column m col) =
  match find (has_col_id c) m with
  | Some x => Some x
  | None => if has_col_id c col then Some col else None
  end.
Proof.
  intros c m col. unfold add_column.
  destruct (existsb (fun c' => String.eqb (col_id c') (col_id col)) m) eqn:E.
  - destruct (find (has_col_id c) m) eqn:F; [reflexivity|].
    destruct (has_col_id c col) eqn:Hc; [|reflexivity].
    exfalso. apply existsb_exists in E as [x [Hx Hxe]].
    apply (find_none _ _ F) in Hx. unfold has_col_id in *.
    apply String.eqb_eq in Hxe, Hc. rewrite Hxe, Hc, String.eqb_refl in Hx. discriminate.
  - rewrite find_app. destruct (find (has_col_id c) m); [reflexivity|].
    simpl. destruct (has_col_id c col); reflexivity.
Qed.

Lemma find_fold_add_column : forall c cols m,
  find (has_col_id c) (fold_left add_column cols m) =
  match find (has_col_id c) m with
  | Some x => Some x
  | None => find (has_col_id c) cols
  end.
Proof.
  intros c cols. induction cols as [|col cols IH]; intros m; simpl.
  - destruct (find (has_col_id c) m); reflexivity.
  - rewrite IH, find_add_column.
    destruct (find (has_col_id c) m); [reflexivity|].
    destruct (has_col_id c col); reflexivity.
Qed.

(** [C3] (amended). In the merged column list of the selected boards,
    the entry for a column id is the first column with that id in board
    iteration order (first-seen wins). *)
Theorem C3_first_seen_wins : forall selectedBoardIds abd c,
  find (has_col_id c) (allAvailableColumnsForSelectedBoards selectedBoardIds abd) =
  find (has_col_id c) (selected_columns selectedBoardIds abd).
Proof.
  intros sel abd c. unfold allAvailableColumnsForSelectedBoards, selected_columns.
  assert (G : forall m, find (has_col_id c)
                (fold_left (fun m boardId =>
                              match assoc_first boardId abd with
                              | Some bi => fold_left add_column (bi_columns bi) m
                              | None => m
                              end) sel m) =
              match find (has_col_id c) m with
              | Some x => Some x
              | None => find (has_col_id c)
                          (List.concat (map (fun b => match assoc_first b abd with
                                                      | Some bi => bi_columns bi
                                                      | None => []
                                                      end) sel))
              end).
  { induction sel as [|b sel IH]; intros m; simpl.
    - destruct (find (has_col_id c) m); reflexivity.
    - rewrite IH. rewrite find_app.
      destruct (assoc_first b abd) as [bi|].
      + rewrite find_fold_add_column.
        destruct (find (has_col_id c) m); [reflexivity|].
        destruct (find (has_col_id c) (bi_columns bi)); reflexivity.
      + destruct (find (has_col_id c) m); reflexivity. }
  rewrite G. reflexivity.
Qed.

(** [C3] as stated fails: two boards both have a column [status]; the
    merged list keeps the one of the first board, not the last. *)
Lemma C3_last_seen_refuted :
  allAvailableColumnsForSelectedBoards ["b1"; "b2"]
    [("b1", mkBoardInfo "b1" "B1" [status_b1]); ("b2", mkBoardInfo "b2" "B2" [status_b2])]
  = [status_b1] /\ status_b1 <> status_b2.
Proof. split; [reflexivity|discriminate]. Qed.

(* ------------------------------------------------------------------ *)
(** ** The background refresh loop *)

Lemma nonempty_true : forall {A} (l : list A), nonempty l = true <-> l <> [].
Proof. intros A l. destruct l; simpl; split; congruence. Qed.

(** [C5] (amended). A tick starts a refresh exactly when settings are
    loaded, no foreground load is running ([isLoadingColumns] and
    [isLoadingItems] are off) and boards and columns are selected; the
    condition reads neither [isPolling] nor how many refreshes are in
    flight, so a background refresh still running does not suppress it. *)
Theorem C5_tick_guard : forall s,
  (poll_guard s = true <->
   ps_isAppLoading s = false /\ ps_isLoadingColumns s = false /\
   ps_isLoadingItems s = false /\ ps_boards s <> [] /\ ps_columns s <> []) /\
  ps_in_flight (tick s) = (if poll_guard s then S (ps_in_flight s) else ps_in_flight s) /\
  (forall b n,
     poll_guard (mkPoll (ps_isAppLoading s) (ps_isLoadingColumns s) (ps_isLoadingItems s) b
                   (ps_boards s) (ps_columns s) n) = poll_guard s).
Proof.
  intros [al lc li pl bs cs n]. split; [|split].
  - unfold poll_guard. simpl.
    rewrite !andb_true_iff, !negb_true_iff, !nonempty_true. tauto.
  - unfold tick, start_fetch.
    destruct (poll_guard (mkPoll al lc li pl bs cs n)) eqn:G; [|reflexivity].
    unfold poll_guard in G; simpl in G.
    apply andb_true_iff in G as [G Hc]. apply andb_true_iff in G as [G Hb].
    simpl. rewrite Hb. reflexivity.
  - reflexivity.
Qed.

(** [C5] as stated fails: from mount (settings loading, one board and one
    column restored) the settings load, the foreground load runs and ends,
    and two ticks follow; the second tick starts a refresh while the one
    started by the first is still in flight. *)
Lemma C5_background_overlap :
  ps_in_flight (poll_run [SettingsLoaded; ContentLoadStart; ContentLoadEnd; Tick]
                  (poll_init ["b1"] ["c1"])) = 1%nat /\
  ps_isPolling (poll_run [SettingsLoaded; ContentLoadStart; ContentLoadEnd; Tick]
                  (poll_init ["b1"] ["c1"])) = true /\
  ps_in_flight (poll_run [SettingsLoaded; ContentLoadStart; ContentLoadEnd; Tick; Tick]
                  (poll_init ["b1"] ["c1"])) = 2%nat.
Proof. vm_compute. repeat split. Qed.

(* ------------------------------------------------------------------ *)
(** ** The view *)

Lemma str_mem_In : forall x l, str_mem x l = true <-> In x l.
Proof.
  intros x l. unfold str_mem. rewrite existsb_exists. split.
  - intros [y [Hy Hxy]]. apply String.eqb_eq in Hxy. subst. exact Hy.
  - intros H. exists x. split; [exact H|apply String.eqb_refl].
Qed.

(** [C6]. For a status column shown in the table, a non-empty filter
    passes an item exactly when the item's normalized status label (its
    trimmed text, with [""], ["-"], ["undefined"] and ["null"] mapped to
    ["No status"]) is among the selected labels; in particular an item
    with status text [""] passes a filter selecting ["No status"] and fails
    one selecting ["Done"]. *)
Theorem C6_status_filter :
  (forall json_parse cols item c sel m,
     find_meta c cols = Some m -> meta_type m = "status" ->
     c <> "current_user_filter" -> sel <> [] ->
     (column_filter_passes json_parse cols item (c, sel) = true <->
      In (normalize_status (status_text (find_cv c (column_values item)))) sel)) /\
  (forall json_parse cols item c m cv,
     find_meta c cols = Some m -> meta_type m = "status" ->
     c <> "current_user_filter" ->
     find_cv c (column_values item) = Some cv -> cv_text cv = Some "" ->
     column_filter_passes json_parse cols item (c, ["No status"]) = true /\
     column_filter_passes json_parse cols item (c, ["Done"]) = false).
Proof.
  assert (Gen : forall json_parse cols item c sel m,
     find_meta c cols = Some m -> meta_type m = "status" ->
     c <> "current_user_filter" -> sel <> [] ->
     (column_filter_passes json_parse cols item (c, sel) = true <->
      In (normalize_status (status_text (find_cv c (column_values item)))) sel)).
  { intros jp cols item c sel m Hm Ht Hc Hs. unfold column_filter_passes.
    apply String.eqb_neq in Hc. rewrite Hc.
    destruct sel as [|v vs]; [congruence|]. rewrite Hm, Ht. simpl String.eqb.
    apply str_mem_In. }
  split; [exact Gen|].
  intros jp cols item c m cv Hm Ht Hc Hcv Htx.
  assert (Hlabel : normalize_status (status_text (find_cv c (column_values item))) = "No status")
    by (rewrite Hcv; unfold status_text; rewrite Htx; reflexivity).
  split.
  - apply (Gen jp cols item c ["No status"] m Hm Ht Hc ltac:(discriminate)).
    rewrite Hlabel. simpl. auto.
  - destruct (column_filter_passes jp cols item (c, ["Done"])) eqn:E; [|reflexivity].
    apply (Gen jp cols item c ["Done"] m Hm Ht Hc ltac:(discriminate)) in E.
    rewrite Hlabel in E. simpl in E. destruct E as [E|[]]. discriminate.
Qed.

Lemma C6_status_filter_witness :
  column_filter_passes parse [status_meta] item_no_status ("status", ["No status"]) = true /\
  column_filter_passes parse [status_meta] item_no_status ("status", ["Done"]) = false.
Proof.
  exact (proj2 C6_status_filter parse [status_meta] item_no_status "status" status_meta
           (mkCV "status" (Some "") None None) eq_refl eq_refl ltac:(discriminate)
           eq_refl eq_refl).
Defined.

(** [C7] (amended). An item whose date text is absent or empty gets time
    value 0 ([new Date(0)], 1970-01-01T00:00:00Z): under ascending sort it
    compares to an item of time [t] as [0 - t], so it sorts below items
    after the epoch and above items before it. An item whose text
    [Date.parse] rejects makes every comparison with it [NaN], in both
    directions. *)
Theorem C7_date_epoch_default :
  (forall date_parse c a b t,
     absent_date (find_cv c (column_values a)) = true ->
     date_time date_parse (find_cv c (column_values b)) = Some t ->
     date_comparator date_parse c "asc" a b = Some (- t)%Z) /\
  (forall date_parse c ord a b cv t,
     find_cv c (column_values a) = Some cv -> cv_text cv = Some t -> t <> "" ->
     date_parse t = None ->
     date_comparator date_parse c ord a b = None /\
     date_comparator date_parse c ord b a = None).
Proof.
  split.
  - intros dp c a b t Ha Hb. unfold date_comparator. rewrite Hb.
    assert (Ha' : date_time dp (find_cv c (column_values a)) = Some 0%Z).
    { unfold absent_date in Ha. unfold date_time.
      destruct (find_cv c (column_values a)) as [cv|]; [|reflexivity].
      destruct (cv_text cv) as [tx|]; [|reflexivity].
      rewrite Ha. reflexivity. }
    rewrite Ha'. reflexivity.
  - intros dp c ord a b cv t Hcv Ht Hne Hp.
    assert (Ha : date_time dp (find_cv c (column_values a)) = None).
    { unfold date_time. rewrite Hcv, Ht. apply String.eqb_neq in Hne. rewrite Hne. exact Hp. }
    unfold date_comparator. rewrite Ha.
    destruct (date_time dp (find_cv c (column_values b)));
      destruct (String.eqb ord "asc"); split; reflexivity.
Qed.

Lemma C7_date_epoch_default_witness :
  absent_date (find_cv "due" (column_values item_undated)) = true /\
  date_time iso_date_parse (find_cv "due" (column_values item_1960)) = Some (-305164800000)%Z /\
  date_comparator iso_date_parse "due" "asc" item_undated item_1960 = Some 305164800000%Z.
Proof.
  split; [reflexivity|split; [vm_compute; reflexivity|]].
  exact (proj1 C7_date_epoch_default iso_date_parse "due" item_undated item_1960
           (-305164800000)%Z eq_refl ltac:(vm_compute; reflexivity)).
Defined.

(** [C7] as stated fails: with the item dated 1960-05-01 (a parseable
    date) and an item with no date, the ascending comparator is positive:
    the undated item sorts above the dated one, not below it. *)
Lemma C7_undated_not_lowest :
  iso_date_parse "1960-05-01" <> None /\
  (0 < match date_comparator iso_date_parse "due" "asc" item_undated item_1960 with
       | Some r => r
       | None => 0
       end)%Z.
Proof. vm_compute. split; [discriminate|reflexivity]. Qed.

(* ------------------------------------------------------------------ *)
(** ** Settings persistence *)

(** [C8]. Saving a view state (after the initial load, with [setItem]
    resolving) and loading it back (with [getItem] resolving, and
    [JSON.parse] inverting [JSON.stringify] on the saved object) restores
    the selected boards, the selected columns and the panel visibility,
    with no app error; and loading on mount when the stored value is a
    string [JSON.parse] rejects keeps the default state, the error being
    caught. *)
Theorem C8_settings_roundtrip :
  (forall (json_parse : string -> option json) (json_stringify : json -> string) s sto s',
     isAppLoading s = false -> st_set_error sto = None -> st_get_error sto = None ->
     truthy (selectedBoardIds s) = true -> truthy (selectedColumnIds s) = true ->
     json_stringify (settingsToSave s) <> "" ->
     json_parse (json_stringify (settingsToSave s)) = Some (settingsToSave s) ->
     let s'' := fst (loadSettings json_parse (fst (saveSettingsAutomatically json_stringify s sto)) s') in
     selectedBoardIds s'' = selectedBoardIds s /\
     selectedColumnIds s'' = selectedColumnIds s /\
     isSidebarOpen s'' = isSidebarOpen s /\
     appError s'' = None /\ isAppLoading s'' = false) /\
  (forall (json_parse : string -> option json) sto str,
     st_get_error sto = None -> st_value sto = Some (SVString str) -> json_parse str = None ->
     let s'' := fst (loadSettings json_parse sto initial_settings) in
     selectedBoardIds s'' = JArr [] /\ selectedColumnIds s'' = JArr [] /\
     isSidebarOpen s'' = JBool false /\ isAppLoading s'' = false).
Proof.
  split.
  - intros jp js s sto s' Hl Hse Hge Hb Hc Hne Hp s''. subst s''.
    unfold saveSettingsAutomatically. rewrite Hl, Hse. simpl fst.
    unfold loadSettings. simpl st_get_error. rewrite Hge. simpl st_value. cbv iota.
    apply String.eqb_neq in Hne. rewrite Hne, Hp.
    unfold apply_parsed, settingsToSave. simpl. rewrite Hb, Hc. simpl.
    repeat split.
  - intros jp sto str Hge Hv Hp s''. subst s''.
    unfold loadSettings. rewrite Hge, Hv.
    destruct (String.eqb str "").
    + simpl. repeat split.
    + rewrite Hp. unfold clear_faulty, load_failed.
      destruct (st_remove sto) as [[m|]|]; simpl; repeat split.
Qed.

Lemma C8_settings_roundtrip_witness :
  let s'' := fst (loadSettings parse (fst (saveSettingsAutomatically stringify saved_view empty_storage))
                    initial_settings) in
  (selectedBoardIds s'' = JArr [JStr "b1"; JStr "b2"] /\
   selectedColumnIds s'' = JArr [JStr "status"] /\
   isSidebarOpen s'' = JBool true /\ appError s'' = None /\ isAppLoading s'' = false) /\
  (let s3 := fst (loadSettings parse (mkStorage (Some (SVString "not json")) None (Some None) None)
                    initial_settings) in
   selectedBoardIds s3 = JArr [] /\ selectedColumnIds s3 = JArr [] /\
   isSidebarOpen s3 = JBool false /\ isAppLoading s3 = false).
Proof.
  split.
  - exact (proj1 C8_settings_roundtrip parse stringify saved_view empty_storage initial_settings
             eq_refl eq_refl eq_refl eq_refl eq_refl
             ltac:(vm_compute; discriminate) ltac:(vm_compute; reflexivity)).
  - exact (proj2 C8_settings_roundtrip parse
             (mkStorage (Some (SVString "not json")) None (Some None) None) "not json"
             eq_refl eq_refl ltac:(vm_compute; reflexivity)).
Defined.

(** [C9] (amended). When the stored value is a non-empty string that
    [JSON.parse] rejects, loading leaves the selections and the panel
    state as they were and never throws; when [removeItem] exists and
    resolves the entry is deleted and no app error is set; when it is
    missing nothing is deleted and no app error is set; when it rejects,
    the rejection (not the parse error) is reported as the app error.
    A stored empty string counts as no settings: the selections and the
    panel state are kept, no app error is set, and storage is left as it
    was. *)
Theorem C9_nonjson_recovery :
  (forall (json_parse : string -> option json) sto s str,
    st_get_error sto = None -> st_value sto = Some (SVString str) -> str <> "" ->
    json_parse str = None ->
    let r := loadSettings json_parse sto s in
    selectedBoardIds (fst r) = selectedBoardIds s /\
    selectedColumnIds (fst r) = selectedColumnIds s /\
    isSidebarOpen (fst r) = isSidebarOpen s /\
    isAppLoading (fst r) = false /\
    (st_remove sto = Some None -> st_value (snd r) = None /\ appError (fst r) = None) /\
    (st_remove sto = None -> st_value (snd r) = st_value sto /\ appError (fst r) = None) /\
    (forall m, st_remove sto = Some (Some m) ->
       appError (fst r) = Some ("Error loading settings: " ++ m))) /\
  (forall (json_parse : string -> option json) sto s,
    st_get_error sto = None -> st_value sto = Some (SVString "") ->
    let r := loadSettings json_parse sto s in
    selectedBoardIds (fst r) = selectedBoardIds s /\
    selectedColumnIds (fst r) = selectedColumnIds s /\
    isSidebarOpen (fst r) = isSidebarOpen s /\
    isAppLoading (fst r) = false /\
    appError (fst r) = None /\
    snd r = sto).
Proof.
  split.
  - intros jp sto s str Hge Hv Hne Hp r. subst r.
    unfold loadSettings. rewrite Hge, Hv.
    apply String.eqb_neq in Hne. rewrite Hne, Hp.
    unfold clear_faulty, load_failed.
    destruct (st_remove sto) as [[m|]|] eqn:Hr; simpl;
      repeat split; intros; try discriminate; try congruence.
  - intros jp sto s Hge Hv r. subst r.
    unfold loadSettings. rewrite Hge, Hv. rewrite String.eqb_refl.
    repeat split.
Qed.

Lemma C9_nonjson_recovery_witness :
  (st_value (snd (loadSettings parse corrupt_storage initial_settings)) = None /\
   appError (fst (loadSettings parse corrupt_storage initial_settings)) = None) /\
  snd (loadSettings parse (mkStorage (Some (SVString "")) None (Some None) None) initial_settings)
    = mkStorage (Some (SVString "")) None (Some None) None.
Proof.
  split.
  - exact (proj1 (proj2 (proj2 (proj2 (proj2
             (proj1 C9_nonjson_recovery parse corrupt_storage initial_settings "{broken"
                eq_refl eq_refl ltac:(discriminate) ltac:(vm_compute; reflexivity))))))
             eq_refl).
  - exact (proj2 (proj2 (proj2 (proj2 (proj2
             (proj2 C9_nonjson_recovery parse (mkStorage (Some (SVString "")) None (Some None) None)
                initial_settings eq_refl eq_refl)))))).
Defined.

(** [C9] as stated fails: a stored empty string, which [JSON.parse]
    rejects, is taken for "no settings" ([if (settingsString)]) and stays in
    storage although [removeItem] is available. *)
Lemma C9_empty_string_kept :
  parse "" = None /\
  st_remove (mkStorage (Some (SVString "")) None (Some None) None) = Some None /\
  snd (loadSettings parse (mkStorage (Some (SVString "")) None (Some None) None) initial_settings)
    = mkStorage (Some (SVString "")) None (Some None) None.
Proof. vm_compute. repeat split. Qed.

(* ------------------------------------------------------------------ *)
(** ** Empty filters *)

Lemma column_filter_passes_empty : forall json_parse cols item c,
  column_filter_passes json_parse cols item (c, []) = true.
Proof. intros. unfold column_filter_passes. destruct (String.eqb c _); reflexivity. Qed.

Lemma forallb_obj_set_empty : forall json_parse cols item c m,
  forallb (column_filter_passes json_parse cols item) (obj_set c [] m) =
  forallb (column_filter_passes json_parse cols item) (obj_del c m).
Proof.
  intros jp cols item c m. induction m as [|[k v] m IH]; cbn [obj_set obj_del forallb].
  - rewrite column_filter_passes_empty. reflexivity.
  - destruct (String.eqb c k); cbn [forallb].
    + rewrite column_filter_passes_empty. reflexivity.
    + rewrite IH. reflexivity.
Qed.

Lemma assoc_first_not_in : forall {A} k (m : list (string * A)),
  ~ In k (map fst m) -> assoc_first k m = None.
Proof.
  intros A k m. induction m as [|[k' v] m IH]; simpl; intros H; [reflexivity|].
  destruct (String.eqb k k') eqn:E.
  - apply String.eqb_eq in E. subst. exfalso. auto.
  - apply IH. auto.
Qed.

Lemma assoc_first_obj_set : forall k c v m,
  assoc_first k (obj_set c v m) = if String.eqb k c then Some v else assoc_first k m.
Proof.
  intros k c v m. induction m as [|[k' v'] m IH]; simpl.
  - reflexivity.
  - destruct (String.eqb c k') eqn:E; simpl.
    + apply String.eqb_eq in E. subst. destruct (String.eqb k k'); reflexivity.
    + rewrite IH. destruct (String.eqb k k') eqn:E2; [|reflexivity].
      apply String.eqb_eq in E2. subst. rewrite String.eqb_sym, E. reflexivity.
Qed.

Lemma assoc_first_obj_del : forall k c m,
  NoDup (map fst m) ->
  assoc_first k (obj_del c m) = if String.eqb k c then None else assoc_first k m.
Proof.
  intros k c m. induction m as [|[k' v'] m IH]; simpl; intros Hnd.
  - destruct (String.eqb k c); reflexivity.
  - inversion Hnd as [|? ? Hni Hnd']; subst.
    destruct (String.eqb c k') eqn:E; simpl.
    + apply String.eqb_eq in E. subst.
      destruct (String.eqb k k') eqn:E2; [|reflexivity].
      apply String.eqb_eq in E2. subst. apply assoc_first_not_in. exact Hni.
    + rewrite IH by exact Hnd'.
      destruct (String.eqb k k') eqn:E2.
      * apply String.eqb_eq in E2. subst. rewrite String.eqb_sym, E. reflexivity.
      * reflexivity.
Qed.

Lemma isFilterByCurrentUserActive_empty : forall c m,
  NoDup (map fst m) ->
  isFilterByCurrentUserActive (obj_set c [] m) = isFilterByCurrentUserActive (obj_del c m).
Proof.
  intros c m Hnd. unfold isFilterByCurrentUserActive.
  rewrite assoc_first_obj_set, assoc_first_obj_del by exact Hnd.
  destruct (String.eqb _ c); reflexivity.
Qed.

(** [C10]. A column filter whose selected values are empty passes every
    item, and the filtered view with such an entry is the view with the
    entry removed altogether (filter keys, as object keys, distinct). *)
Theorem C10_empty_filter_inert :
  forall json_parse allBoardColumns cols c m currentUserId boardItems,
    NoDup (map fst m) ->
    (forall item, column_filter_passes json_parse cols item (c, []) = true) /\
    filter_items json_parse allBoardColumns cols (obj_set c [] m) currentUserId boardItems =
    filter_items json_parse allBoardColumns cols (obj_del c m) currentUserId boardItems.
Proof.
  intros jp abc cols c m uid items Hnd. split.
  - intros item. apply column_filter_passes_empty.
  - unfold filter_items. rewrite isFilterByCurrentUserActive_empty by exact Hnd.
    apply filter_ext. intros item. apply forallb_obj_set_empty.
Qed.

Lemma C10_empty_filter_inert_witness :
  handleFilterChange "status" "Done" false [("status", ["Done"])] = [("status", [])] /\
  filter_items parse [done_meta] [done_meta] [("status", [])] JNull [item_no_status; item_done]
  = filter_items parse [done_meta] [done_meta] [] JNull [item_no_status; item_done].
Proof.
  split; [reflexivity|].
  exact (proj2 (C10_empty_filter_inert parse [done_meta] [done_meta] "status" [("status", ["Done"])]
                  JNull [item_no_status; item_done] ltac:(repeat constructor; simpl; tauto))).
Defined.

(* ================================================================== *)
(** * Further properties of the application *)

(* ------------------------------------------------------------------ *)
(** ** Board and column selection *)

Lemma filter_all_true : forall {A} (f : A -> bool) l,
  (forall x, In x l -> f x = true) -> filter f l = l.
Proof.
  intros A f l. induction l as [|a l IH]; simpl; intros H; [reflexivity|].
  rewrite (H a (or_introl eq_refl)), IH; auto.
Qed.

Lemma handleColumnToggle_as_board : forall c prev,
  handleColumnToggle c prev = handleBoardToggle c prev.
Proof. reflexivity. Qed.

Lemma handleBoardToggle_In : forall b prev x,
  In x (handleBoardToggle b prev) <-> (x = b /\ ~ In b prev) \/ (x <> b /\ In x prev).
Proof.
  intros b prev x. unfold handleBoardToggle.
  destruct (str_mem b prev) eqn:E.
  - apply str_mem_In in E. rewrite filter_In, negb_true_iff, String.eqb_neq. tauto.
  - assert (E' : ~ In b prev) by (rewrite <- str_mem_In, E; discriminate).
    rewrite in_app_iff. simpl.
    destruct (string_dec x b) as [->|Hne]; [tauto|].
    split; [intros [H|[H|[]]]; [tauto|congruence] | tauto].
Qed.

Lemma handleBoardToggle_NoDup : forall b prev,
  NoDup prev -> NoDup (handleBoardToggle b prev).
Proof.
  intros b prev Hnd. unfold handleBoardToggle.
  destruct (str_mem b prev) eqn:E.
  - apply NoDup_filter. exact Hnd.
  - assert (E' : ~ In b prev) by (rewrite <- str_mem_In, E; discriminate).
    apply (Permutation_NoDup (Permutation_cons_append prev b)). constructor; assumption.
Qed.

Lemma handleBoardToggle_twice : forall b prev,
  ~ In b prev -> handleBoardToggle b (handleBoardToggle b prev) = prev.
Proof.
  intros b prev H. unfold handleBoardToggle at 2.
  assert (E : str_mem b prev = false)
    by (destruct (str_mem b prev) eqn:E; [apply str_mem_In in E; contradiction|reflexivity]).
  rewrite E. unfold handleBoardToggle.
  assert (E2 : str_mem b (prev ++ [b])%list = true)
    by (apply str_mem_In, in_app_iff; simpl; auto).
  rewrite E2, filter_app. simpl. rewrite String.eqb_refl. simpl. rewrite app_nil_r.
  apply filter_all_true. intros x Hx. apply negb_true_iff, String.eqb_neq. congruence.
Qed.

(** [X1]. Toggling a board or a column id: the id is in the new
    selection exactly when it was not in the old one, every other id keeps
    its membership, a selection without duplicates stays without
    duplicates, and toggling an unselected id twice gives back the
    original selection. *)
Theorem X1_toggle_selection :
  forall b prev,
    (forall x, In x (handleBoardToggle b prev) <-> (x = b /\ ~ In b prev) \/ (x <> b /\ In x prev)) /\
    (forall x, In x (handleColumnToggle b prev) <-> (x = b /\ ~ In b prev) \/ (x <> b /\ In x prev)) /\
    (NoDup prev -> NoDup (handleBoardToggle b prev) /\ NoDup (handleColumnToggle b prev)) /\
    (~ In b prev -> handleBoardToggle b (handleBoardToggle b prev) = prev /\
                   handleColumnToggle b (handleColumnToggle b prev) = prev).
Proof.
  intros b prev.
  split; [|split; [|split]].
  - apply handleBoardToggle_In.
  - exact (handleBoardToggle_In b prev).
  - intros H. split; [exact (handleBoardToggle_NoDup b prev H)|].
    exact (handleBoardToggle_NoDup b prev H).
  - intros H. split; [exact (handleBoardToggle_twice b prev H)|].
    exact (handleBoardToggle_twice b prev H).
Qed.

Lemma X1_toggle_selection_witness :
  NoDup (handleBoardToggle "b2" ["b1"]) /\ handleColumnToggle "c2" (handleColumnToggle "c2" ["c1"]) = ["c1"].
Proof.
  split.
  - exact (proj1 (proj1 (proj2 (proj2 (X1_toggle_selection "b2" ["b1"])))
                  ltac:(repeat constructor; simpl; tauto))).
  - exact (proj2 (proj2 (proj2 (proj2 (X1_toggle_selection "c2" ["c1"])))
                  ltac:(simpl; intros [H|[]]; discriminate))).
Defined.

Lemma add_column_props : forall m col,
  NoDup (map col_id m) ->
  NoDup (map col_id (add_column m col)) /\
  (forall c, In c (add_column m col) -> In c m \/ c = col) /\
  (forall c, In c m -> In c (add_column m col)) /\
  (exists c', In c' (add_column m col) /\ col_id c' = col_id col).
Proof.
  intros m col Hnd. unfold add_column.
  destruct (existsb (fun c => String.eqb (col_id c) (col_id col)) m) eqn:E.
  - apply existsb_exists in E as [c' [Hin Heq]]. apply String.eqb_eq in Heq.
    split; [exact Hnd|split; [auto|split; [auto|eauto]]].
  - split; [|split; [|split]].
    + rewrite map_app. simpl.
      apply (Permutation_NoDup (Permutation_cons_append (map col_id m) (col_id col))).
      constructor; [|exact Hnd].
      intros Hin. apply in_map_iff in Hin as [c' [Heq Hin]].
      assert (existsb (fun c => String.eqb (col_id c) (col_id col)) m = true)
        by (apply existsb_exists; exists c'; split; [exact Hin|apply String.eqb_eq; exact Heq]).
      congruence.
    + intros c Hc. apply in_app_iff in Hc as [Hc|[Hc|[]]]; auto.
    + intros c Hc. apply in_app_iff. auto.
    + exists col. split; [apply in_app_iff; simpl; auto|reflexivity].
Qed.

Lemma fold_add_column_props : forall cols m,
  NoDup (map col_id m) ->
  NoDup (map col_id (fold_left add_column cols m)) /\
  (forall c, In c (fold_left add_column cols m) -> In c m \/ In c cols) /\
  (forall c, In c m -> In c (fold_left add_column cols m)) /\
  (forall col, In col cols -> exists c', In c' (fold_left add_column cols m) /\ col_id c' = col_id col).
Proof.
  intros cols. induction cols as [|col cols IH]; intros m Hnd; simpl.
  - split; [exact Hnd|split; [auto|split; [auto|intros _ []]]].
  - destruct (add_column_props m col Hnd) as [Hnd1 [Hfrom [Hkeep [c1 [Hc1 Hid1]]]]].
    destruct (IH (add_column m col) Hnd1) as [Hnd2 [Hfrom2 [Hkeep2 Hcov2]]].
    split; [exact Hnd2|split; [|split]].
    + intros c Hc. destruct (Hfrom2 c Hc) as [H|H]; [|auto].
      destruct (Hfrom c H); subst; auto.
    + intros c Hc. apply Hkeep2, Hkeep, Hc.
    + intros col' [<-|Hin].
      * exists c1. split; [apply Hkeep2, Hc1|exact Hid1].
      * apply Hcov2, Hin.
Qed.

Lemma merged_columns_props : forall sel abd m,
  NoDup (map col_id m) ->
  let r := fold_left
             (fun m boardId =>
                match assoc_first boardId abd with
                | Some bi => fold_left add_column (bi_columns bi) m
                | None => m
                end) sel m in
  NoDup (map col_id r) /\
  (forall c, In c r -> In c m \/ exists b, In b sel /\ In c (board_columns abd b)) /\
  (forall col b, In b sel -> In col (board_columns abd b) ->
     exists c', In c' r /\ col_id c' = col_id col) /\
  (forall c, In c m -> In c r).
Proof.
  intros sel abd. induction sel as [|b sel IH]; intros m Hnd r; subst r; simpl.
  - split; [exact Hnd|split; [auto|split; [intros _ _ []|auto]]].
  - set (m1 := match assoc_first b abd with
               | Some bi => fold_left add_column (bi_columns bi) m
               | None => m
               end).
    assert (H1 : NoDup (map col_id m1) /\
                 (forall c, In c m1 -> In c m \/ In c (board_columns abd b)) /\
                 (forall c, In c m -> In c m1) /\
                 (forall col, In col (board_columns abd b) ->
                    exists c', In c' m1 /\ col_id c' = col_id col)).
    { subst m1. unfold board_columns. destruct (assoc_first b abd) as [bi|].
      - destruct (fold_add_column_props (bi_columns bi) m Hnd) as [A [B [C D]]].
        split; [exact A|split; [exact B|split; [exact C|exact D]]].
      - split; [exact Hnd|split; [auto|split; [auto|intros _ []]]]. }
    destruct H1 as [Hnd1 [Hfrom1 [Hkeep1 Hcov1]]].
    destruct (IH m1 Hnd1) as [Hnd2 [Hfrom2 [Hcov2 Hkeep2]]].
    split; [exact Hnd2|split; [|split]].
    + intros c Hc. destruct (Hfrom2 c Hc) as [H|[b' [Hb' Hc']]].
      * destruct (Hfrom1 c H) as [H'|H']; [auto|right; exists b; simpl; auto].
      * right. exists b'. simpl. auto.
    + intros col b' [<-|Hb'] Hcol.
      * destruct (Hcov1 col Hcol) as [c' [Hc' Hid]]. exists c'. split; [apply Hkeep2, Hc'|exact Hid].
      * apply (Hcov2 col b' Hb' Hcol).
    + intros c Hc. apply Hkeep2, Hkeep1, Hc.
Qed.

(** [X2]. The column list offered for the selected boards has no two
    columns with the same id; every column in it is a column of a selected
    board, and every column of a selected board is represented in it by a
    column with the same id. *)
Theorem X2_available_columns :
  forall selectedBoardIds abd,
    let r := allAvailableColumnsForSelectedBoards selectedBoardIds abd in
    NoDup (map col_id r) /\
    (forall c, In c r -> exists b, In b selectedBoardIds /\ In c (board_columns abd b)) /\
    (forall col b, In b selectedBoardIds -> In col (board_columns abd b) ->
       exists c', In c' r /\ col_id c' = col_id col).
Proof.
  intros sel abd r. subst r. unfold allAvailableColumnsForSelectedBoards.
  destruct (merged_columns_props sel abd [] (NoDup_nil _)) as [A [B [C _]]].
  split; [exact A|split; [|exact C]].
  intros c Hc. destruct (B c Hc) as [[]|H]. exact H.
Qed.

Lemma X2_available_columns_witness :
  exists c', In c' (allAvailableColumnsForSelectedBoards ["b1"; "b2"] abd_two) /\ col_id c' = "person".
Proof.
  apply (proj2 (proj2 (X2_available_columns ["b1"; "b2"] abd_two))
           (mkColumn "person" "Owner" "people" None) "b2").
  - right. left. reflexivity.
  - vm_compute. right. left. reflexivity.
Defined.

Lemma find_meta_map_column_meta : forall l col,
  NoDup (map col_id l) -> In col l ->
  find_meta (col_id col) (map column_meta l) = Some (column_meta col).
Proof.
  intros l col. induction l as [|c l IH]; simpl; intros Hnd Hin; [contradiction|].
  inversion Hnd as [|? ? Hni Hnd']; subst.
  unfold find_meta. simpl. destruct Hin as [<-|Hin].
  - rewrite String.eqb_refl. reflexivity.
  - destruct (String.eqb (col_id c) (col_id col)) eqn:E.
    + apply String.eqb_eq in E. exfalso. apply Hni. rewrite E. apply in_map, Hin.
    + apply IH; assumption.
Qed.

Lemma columnsForTable_cons : forall colId ids all,
  columnsForTable (colId :: ids) all =
  match find_meta colId virtualColumns with
  | Some vc => vc :: columnsForTable ids all
  | None => match find_meta colId all with
            | Some m => m :: columnsForTable ids all
            | None => columnsForTable ids all
            end
  end.
Proof. reflexivity. Qed.

Lemma columnsForTable_map : forall (l : list Column) all,
  (forall col, In col l -> find_meta (col_id col) virtualColumns = None /\
                           find_meta (col_id col) all = Some (column_meta col)) ->
  columnsForTable (map col_id l) all = map column_meta l.
Proof.
  intros l all. induction l as [|col l IH]; intros H; [reflexivity|].
  simpl map. rewrite columnsForTable_cons.
  destruct (H col (or_introl eq_refl)) as [-> ->]. rewrite IH; [reflexivity|].
  intros c Hc. apply H. simpl. auto.
Qed.

Lemma NoDup_map_filter : forall {A B} (f : A -> B) (p : A -> bool) l,
  NoDup (map f l) -> NoDup (map f (filter p l)).
Proof.
  intros A B f p l. induction l as [|a l IH]; simpl; intros Hnd; [constructor|].
  inversion Hnd as [|? ? Hni Hnd']; subst.
  destruct (p a); simpl; [|auto].
  constructor; [|auto].
  intros Hin. apply Hni. apply in_map_iff in Hin as [x [Hx Hin]].
  apply filter_In in Hin as [Hin _]. rewrite <- Hx. apply in_map, Hin.
Qed.

Lemma filter_str_mem_nil : forall (l : list Column),
  filter (fun col => str_mem (col_id col) []) l = [].
Proof. induction l; simpl; auto. Qed.

Lemma table_columns_shape : forall av cols,
  NoDup (map col_id av) -> forallb not_reserved_id av = true ->
  table_columns av cols =
    (mkMeta "board_name_column" "Board" "board_link"
     :: mkMeta "item_name_column" "Task Name" "item_name"
     :: map column_meta (filter (fun col => str_mem (col_id col) cols) av))%list.
Proof.
  intros av cols Hnd Hres. unfold table_columns, columnsToDisplayInTable.
  set (F := filter (fun col => str_mem (col_id col) cols) av).
  simpl map at 1. rewrite !columnsForTable_cons.
  rewrite (eq_refl : find_meta "board_name_column" virtualColumns
                     = Some (mkMeta "board_name_column" "Board" "board_link")).
  rewrite (eq_refl : find_meta "item_name_column" virtualColumns
                     = Some (mkMeta "item_name_column" "Task Name" "item_name")).
  f_equal. f_equal.
  apply columnsForTable_map. intros col Hcol.
  assert (Hr : not_reserved_id col = true).
  { rewrite forallb_forall in Hres. apply Hres. subst F. apply filter_In in Hcol. tauto. }
  unfold not_reserved_id in Hr. apply andb_true_iff in Hr as [H1 H2].
  apply negb_true_iff in H1, H2.
  split.
  - unfold find_meta, virtualColumns. cbn [find meta_id].
    rewrite (String.eqb_sym "item_name_column"), H2.
    rewrite (String.eqb_sym "board_name_column"), H1. reflexivity.
  - unfold find_meta. cbn [map find column_meta meta_id boardNameColumn itemNameColumn col_id].
    rewrite (String.eqb_sym "board_name_column"), H1.
    rewrite (String.eqb_sym "item_name_column"), H2. fold (find_meta (col_id col) (map column_meta F)).
    apply find_meta_map_column_meta; [|exact Hcol].
    apply NoDup_map_filter, Hnd.
Qed.

(** [X3]. The table [App] renders starts with the board column (as
    [TaskTable]'s own board-link column) and the task-name column, followed
    by the selected columns of the offered list, in its order; after
    selecting all fields it shows every offered column, after deselecting
    all only those two (offered columns not reusing their two ids). *)
Theorem X3_table_columns :
  forall selectedBoardIds abd selectedColumnIds,
    let av := allAvailableColumnsForSelectedBoards selectedBoardIds abd in
    forallb not_reserved_id av = true ->
    table_columns av selectedColumnIds =
      (table_head ++ map column_meta (filter (fun col => str_mem (col_id col) selectedColumnIds) av))%list /\
    table_columns av (handleSelectAllColumns av) = (table_head ++ map column_meta av)%list /\
    table_columns av handleDeselectAllColumns = table_head.
Proof.
  intros sel abd cols av Hres.
  assert (Hnd : NoDup (map col_id av)).
  { subst av. unfold allAvailableColumnsForSelectedBoards.
    exact (proj1 (merged_columns_props sel abd [] (NoDup_nil _))). }
  split; [|split].
  - rewrite table_columns_shape by assumption. reflexivity.
  - rewrite table_columns_shape by assumption. unfold table_head. simpl. f_equal. f_equal. f_equal.
    apply filter_all_true. intros x Hx. apply str_mem_In. unfold handleSelectAllColumns.
    apply in_map, Hx.
  - rewrite table_columns_shape by assumption. unfold handleDeselectAllColumns.
    rewrite filter_str_mem_nil. reflexivity.
Qed.

Lemma X3_table_columns_witness :
  table_columns (allAvailableColumnsForSelectedBoards ["b1"; "b2"] abd_two) ["person"] =
  [mkMeta "board_name_column" "Board" "board_link";
   mkMeta "item_name_column" "Task Name" "item_name";
   mkMeta "person" "Owner" "people"].
Proof.
  exact (proj1 (X3_table_columns ["b1"; "b2"] abd_two ["person"] eq_refl)).
Defined.

(* ------------------------------------------------------------------ *)
(** ** The sidebar's boards *)

(** [X4]. Selecting all boards selects the ids of the boards the sidebar
    already lists, without a request, when it lists any; otherwise it
    issues one boards request, selects and lists the returned boards on
    success, keeps the selection and reports "Error selecting all boards:
    ..." on failure, and ends with [isLoadingColumns] off.  After a
    successful fetch of a non-empty list, selecting all again issues no
    further request. *)
Theorem X4_select_all_boards :
  forall (boards_response : nat -> Result (option (list BoardRef))) s,
    (allAvailableBoardsForSidebar s <> [] ->
       sb_selectedBoardIds (handleSelectAllBoards boards_response s)
         = map br_id (allAvailableBoardsForSidebar s) /\
       boards_requests (handleSelectAllBoards boards_response s) = boards_requests s) /\
    (allAvailableBoardsForSidebar s = [] ->
       let s' := handleSelectAllBoards boards_response s in
       boards_requests s' = S (boards_requests s) /\ sb_isLoadingColumns s' = false /\
       match boards_response (boards_requests s) with
       | Ok (Some bs) => sb_selectedBoardIds s' = map br_id bs /\
                         allAvailableBoardsForSidebar s' = bs /\
                         allBoardsForSidebarFetchError s' = None
       | Ok None => sb_selectedBoardIds s' = sb_selectedBoardIds s /\
                    allBoardsForSidebarFetchError s' = None
       | Err e => sb_selectedBoardIds s' = sb_selectedBoardIds s /\
                  allBoardsForSidebarFetchError s' = Some ("Error selecting all boards: " ++ err_message e)
       end) /\
    (forall b bs, allAvailableBoardsForSidebar s = [] ->
       boards_response (boards_requests s) = Ok (Some (b :: bs)) ->
       boards_requests (handleSelectAllBoards boards_response (handleSelectAllBoards boards_response s))
         = S (boards_requests s)).
Proof.
  intros r [bl fe er sel lc op n]. simpl.
  split; [|split].
  - intros H. destruct bl as [|b bl]; [congruence|]. simpl. split; reflexivity.
  - intros H. subst bl. cbv zeta. unfold handleSelectAllBoards. simpl.
    destruct (r n) as [[bs|]|e]; simpl; repeat split.
  - intros b bs -> Hr. unfold handleSelectAllBoards at 2. simpl. rewrite Hr. simpl.
    reflexivity.
Qed.

Lemma X4_select_all_boards_witness :
  boards_requests
    (handleSelectAllBoards (fun _ => Ok (Some [mkBoardRef "b1" "One"]))
       (handleSelectAllBoards (fun _ => Ok (Some [mkBoardRef "b1" "One"]))
          (mkSidebar [] false None [] false false 0))) = 1%nat.
Proof.
  exact (proj2 (proj2 (X4_select_all_boards (fun _ => Ok (Some [mkBoardRef "b1" "One"]))
                          (mkSidebar [] false None [] false false 0)))
           (mkBoardRef "b1" "One") [] eq_refl eq_refl).
Defined.

(** [X5]. Closing the sidebar never requests the boards list, and
    opening it requests the list only when none is loaded and no fetch is
    running: then exactly one request is made, the list is set on success
    or "Error loading all boards: ..." reported on failure, and the fetch
    flag is off again.  After a successful non-empty fetch, closing and
    reopening makes no new request. *)
Theorem X5_toggle_sidebar_fetch :
  forall (boards_response : nat -> Result (option (list BoardRef))) s,
    (sb_isSidebarOpen s = true ->
       toggleSidebar boards_response s = set_sb_isSidebarOpen false s) /\
    (sb_isSidebarOpen s = false -> allAvailableBoardsForSidebar s <> [] ->
       toggleSidebar boards_response s = set_sb_isSidebarOpen true s) /\
    (sb_isSidebarOpen s = false -> allAvailableBoardsForSidebar s = [] ->
       isFetchingAllBoardsForSidebar s = false ->
       let s' := toggleSidebar boards_response s in
       sb_isSidebarOpen s' = true /\ boards_requests s' = S (boards_requests s) /\
       isFetchingAllBoardsForSidebar s' = false /\
       match boards_response (boards_requests s) with
       | Ok (Some bs) => allAvailableBoardsForSidebar s' = bs /\ allBoardsForSidebarFetchError s' = None
       | Ok None => allAvailableBoardsForSidebar s' = [] /\ allBoardsForSidebarFetchError s' = None
       | Err e => allAvailableBoardsForSidebar s' = [] /\
                  allBoardsForSidebarFetchError s' = Some ("Error loading all boards: " ++ err_message e)
       end) /\
    (forall b bs, sb_isSidebarOpen s = false -> allAvailableBoardsForSidebar s = [] ->
       isFetchingAllBoardsForSidebar s = false ->
       boards_response (boards_requests s) = Ok (Some (b :: bs)) ->
       boards_requests (toggleSidebar boards_response
                          (toggleSidebar boards_response (toggleSidebar boards_response s)))
         = S (boards_requests s)).
Proof.
  intros r [bl fe er sel lc op n]. simpl.
  split; [|split; [|split]].
  - intros ->. reflexivity.
  - intros -> H. destruct bl as [|b bl]; [congruence|]. reflexivity.
  - intros -> -> ->. cbv zeta. unfold toggleSidebar, fetchBoardsForSidebarSelection. simpl.
    destruct (r n) as [[bs|]|e]; simpl; repeat split.
  - intros b bs -> -> -> Hr.
    unfold toggleSidebar at 3, fetchBoardsForSidebarSelection. simpl. rewrite Hr. simpl.
    reflexivity.
Qed.

Lemma X5_toggle_sidebar_fetch_witness :
  boards_requests
    (toggleSidebar (fun _ => Ok (Some [mkBoardRef "b1" "One"]))
       (toggleSidebar (fun _ => Ok (Some [mkBoardRef "b1" "One"]))
          (toggleSidebar (fun _ => Ok (Some [mkBoardRef "b1" "One"]))
             (mkSidebar [] false None [] false false 0)))) = 1%nat.
Proof.
  exact (proj2 (proj2 (proj2 (X5_toggle_sidebar_fetch (fun _ => Ok (Some [mkBoardRef "b1" "One"]))
                                 (mkSidebar [] false None [] false false 0))))
           (mkBoardRef "b1" "One") [] eq_refl eq_refl eq_refl eq_refl).
Defined.

(* ------------------------------------------------------------------ *)
(** ** Status changes *)

Lemma normalize_status_nonempty : forall t, normalize_status t <> "".
Proof.
  intros t. unfold normalize_status.
  destruct (String.eqb t "-" || String.eqb t "undefined" || String.eqb t "null" || String.eqb t "")
    eqn:E; [discriminate|].
  rewrite !orb_false_iff in E. destruct E as [[[_ _] _] E].
  apply String.eqb_neq in E. exact E.
Qed.

Lemma status_filter_single : forall json_parse meta item x,
  meta_type meta = "status" -> meta_id meta <> "current_user_filter" ->
  column_filter_passes json_parse [meta] item (meta_id meta, [x]) =
  String.eqb (normalize_status (status_text (find_cv (meta_id meta) (column_values item)))) x.
Proof.
  intros jp meta item x Ht Hc. unfold column_filter_passes.
  apply String.eqb_neq in Hc. rewrite Hc.
  unfold find_meta. simpl. rewrite String.eqb_refl, Ht. simpl.
  unfold str_mem. simpl. rewrite orb_false_r. reflexivity.
Qed.

(** [X6]. Picking a status in a status cell sends an update exactly when
    the item would fail the status filter for the picked label: the clear
    option sends an empty label unless the item already passes the
    "No status" filter, and another option sends [{label: option.label}]
    (untrimmed) unless the item passes the filter for its trimmed label.
    With no option at all, an update to an empty label is always sent. *)
Theorem X6_status_change :
  forall json_parse item meta,
    meta_type meta = "status" -> meta_id meta <> "current_user_filter" ->
    (forall o, opt_id o = "clear" ->
       handleStatusChange (Some o) item meta =
         if column_filter_passes json_parse [meta] item (meta_id meta, ["No status"]) then None
         else Some (boardId item, item_id item, meta_id meta, JObj [("label", JStr "")])) /\
    (forall o, opt_id o <> "clear" ->
       handleStatusChange (Some o) item meta =
         if column_filter_passes json_parse [meta] item (meta_id meta, [trim (opt_label o)]) then None
         else Some (boardId item, item_id item, meta_id meta, JObj [("label", JStr (opt_label o))])) /\
    handleStatusChange None item meta =
      Some (boardId item, item_id item, meta_id meta, JObj [("label", JStr "")]).
Proof.
  intros jp item meta Ht Hc. split; [|split].
  - intros o Ho. rewrite status_filter_single by assumption.
    unfold handleStatusChange. rewrite Ho. simpl.
    destruct (String.eqb _ "No status"); reflexivity.
  - intros o Ho. rewrite status_filter_single by assumption.
    unfold handleStatusChange. apply String.eqb_neq in Ho. rewrite Ho.
    rewrite String.eqb_sym. destruct (String.eqb _ (trim (opt_label o))); reflexivity.
  - unfold handleStatusChange.
    destruct (String.eqb (trim "") (normalize_status (status_text (find_cv (meta_id meta) (column_values item))))) eqn:E;
      [|reflexivity].
    apply String.eqb_eq in E. exfalso. apply (normalize_status_nonempty _ (eq_sym E)).
Qed.

Lemma X6_status_change_witness :
  handleStatusChange (Some (mkStatusOption "clear" "No status")) item_no_status status_meta = None /\
  handleStatusChange (Some (mkStatusOption "1" "Done")) item_no_status status_meta =
    Some ("b1", "i1", "status", JObj [("label", JStr "Done")]).
Proof.
  destruct (X6_status_change parse item_no_status status_meta eq_refl ltac:(discriminate))
    as [H1 [H2 _]].
  split.
  - exact (H1 (mkStatusOption "clear" "No status") eq_refl).
  - exact (H2 (mkStatusOption "1" "Done") ltac:(discriminate)).
Defined.

(* ------------------------------------------------------------------ *)
(** ** Renaming items *)

Lemma edit_run_idle : forall evs st,
  editingItemId st = None ->
  snd (edit_run evs st) = [] /\ editingItemId (fst (edit_run evs st)) = None.
Proof.
  intros evs. induction evs as [|ev evs IH]; intros st Hst; simpl; [auto|].
  assert (Hstep : snd (edit_step ev st) = None /\ editingItemId (fst (edit_step ev st)) = None).
  { destruct ev as [i b n|k i b n|v]; simpl.
    - unfold handleSaveEdit. rewrite Hst. auto.
    - unfold handleKeyDown. destruct (String.eqb k "Enter").
      + unfold handleSaveEdit. rewrite Hst. auto.
      + destruct (String.eqb k "Escape"); simpl; auto.
    - auto. }
  destruct (edit_step ev st) as [st1 r] eqn:E. simpl in Hstep. destruct Hstep as [-> H1].
  destruct (edit_run evs st1) as [st2 rs] eqn:E2.
  destruct (IH st1 H1) as [A B]. rewrite E2 in A, B. simpl in *. auto.
Qed.

(** [X7]. The inline rename never happens: from the initial editor state,
    no sequence of the events the table can raise (save, key presses,
    typing) sends an [UPDATE_ITEM_NAME_QUERY] or opens the editor, since
    only the uncalled [handleDoubleClick] sets [editingItemId].  Had the
    editor been opened on an item, Enter would send the trimmed new name
    when it is non-empty and differs from the current one, and Escape
    would close it without a request. *)
Theorem X7_rename_unreachable :
  (forall evs,
     snd (edit_run evs edit0) = [] /\ editingItemId (fst (edit_run evs edit0)) = None) /\
  (forall st itemId boardId name v,
     edit_run [EvChange v; EvKey "Enter" itemId boardId name] (handleDoubleClick itemId name st)
       = (edit0, if negb (String.eqb (trim v) "") && negb (String.eqb (trim v) name)
                 then [(boardId, itemId, trim v)] else []) /\
     edit_run [EvChange v; EvKey "Escape" itemId boardId name] (handleDoubleClick itemId name st)
       = (edit0, [])).
Proof.
  split.
  - intros evs. apply edit_run_idle. reflexivity.
  - intros st i b n v. split.
    + simpl. unfold handleKeyDown. simpl. unfold handleSaveEdit. simpl.
      rewrite String.eqb_refl.
      destruct (negb (String.eqb (trim v) "") && negb (String.eqb (trim v) n)); reflexivity.
    + reflexivity.
Qed.

(* ------------------------------------------------------------------ *)
(** ** Item names *)

Lemma prefixb_app : forall p s, prefixb p (p ++ s) = true.
Proof.
  induction p as [|a p IH]; intros s; simpl; [reflexivity|].
  rewrite Ascii.eqb_refl. apply IH.
Qed.

Lemma length_app_str : forall a b, String.length (a ++ b) = (String.length a + String.length b)%nat.
Proof. induction a as [|c a IH]; intros b; simpl; [reflexivity|]. rewrite IH. reflexivity. Qed.

Lemma substring_app_r : forall a b n k,
  substring (String.length a + n) k (a ++ b) = substring n k b.
Proof. induction a as [|c a IH]; intros b n k; simpl; [reflexivity|]. apply IH. Qed.

Lemma substring_prefix : forall a b, substring 0 (String.length a) (a ++ b) = a.
Proof. induction a as [|c a IH]; intros b; simpl; [destruct b; reflexivity|]. rewrite IH. reflexivity. Qed.

Lemma ruby_hash_group_wrap : forall m,
  existsb is_line_terminator (list_ascii_of_string m) = false ->
  ruby_hash_group (ruby_prefix ++ m ++ ruby_suffix) = Some m.
Proof.
  intros m Hm. unfold ruby_hash_group.
  rewrite prefixb_app. rewrite !length_app_str.
  change (String.length ruby_prefix) with 10%nat. change (String.length ruby_suffix) with 2%nat.
  assert (Hsuf : substring (10 + (String.length m + 2) - 2) 2 (ruby_prefix ++ m ++ ruby_suffix)
                 = ruby_suffix).
  { replace (10 + (String.length m + 2) - 2)%nat
      with (String.length ruby_prefix + (String.length m + 0))%nat by (simpl; lia).
    rewrite substring_app_r.
    pose proof (substring_app_r m ruby_suffix 0 2) as H. rewrite Nat.add_0_r in H.
    rewrite Nat.add_0_r, H. reflexivity. }
  assert (Hmid : substring 10 (10 + (String.length m + 2) - 12) (ruby_prefix ++ m ++ ruby_suffix) = m).
  { replace (10 + (String.length m + 2) - 12)%nat with (String.length m) by lia.
    pose proof (substring_app_r ruby_prefix (m ++ ruby_suffix) 0 (String.length m)) as H.
    rewrite Nat.add_0_r in H. change (String.length ruby_prefix) with 10%nat in H.
    rewrite H. apply substring_prefix. }
  rewrite Hsuf, Hmid, String.eqb_refl, Hm.
  assert (Hle : (12 <=? 10 + (String.length m + 2))%nat = true) by (apply Nat.leb_le; lia).
  rewrite Hle. reflexivity.
Qed.

(** [X8]. The name cell never shows an empty name (an empty name shows as
    "Untitled"); a name of the Ruby-hash form [ruby_prefix ++ m ++ ruby_suffix] shows as [m]
    when [m] is non-empty and has no line break; and a name not starting
    with [ruby_prefix] is shown as it is. *)
Theorem X8_display_item_name :
  (forall name, display_item_name name <> "") /\
  (forall m, m <> "" -> existsb is_line_terminator (list_ascii_of_string m) = false ->
     display_item_name (ruby_prefix ++ m ++ ruby_suffix) = m) /\
  (forall name, name <> "" -> prefixb ruby_prefix name = false -> display_item_name name = name) /\
  display_item_name "" = "Untitled".
Proof.
  split; [|split; [|split]].
  - intros name. unfold display_item_name.
    set (cur := if String.eqb name "" then "Untitled" else name).
    assert (Hcur : cur <> "").
    { subst cur. destruct (String.eqb name "") eqn:E; [discriminate|].
      apply String.eqb_neq, E. }
    destruct (ruby_hash_group cur) as [g|]; [|exact Hcur].
    destruct (String.eqb g "") eqn:E; [exact Hcur|]. apply String.eqb_neq, E.
  - intros m Hne Hm. unfold display_item_name.
    rewrite (eq_refl : String.eqb (ruby_prefix ++ m ++ ruby_suffix) "" = false).
    rewrite ruby_hash_group_wrap by exact Hm.
    apply String.eqb_neq in Hne. rewrite Hne. reflexivity.
  - intros name Hne Hp. unfold display_item_name.
    apply String.eqb_neq in Hne. rewrite Hne.
    unfold ruby_hash_group. rewrite Hp. reflexivity.
  - reflexivity.
Qed.

Lemma X8_display_item_name_witness :
  display_item_name (ruby_prefix ++ "Launch plan" ++ ruby_suffix) = "Launch plan".
Proof.
  exact (proj1 (proj2 X8_display_item_name) "Launch plan" ltac:(discriminate) eq_refl).
Defined.

(* ------------------------------------------------------------------ *)
(** ** The user cache *)

Lemma assoc_first_obj_put_same : forall {A} k (v : A) o, assoc_first k (obj_put k v o) = Some v.
Proof.
  intros A k v o. induction o as [|[k' v'] o IH]; simpl.
  - rewrite String.eqb_refl. reflexivity.
  - destruct (String.eqb k k') eqn:E; simpl.
    + rewrite String.eqb_refl. reflexivity.
    + rewrite E. exact IH.
Qed.

Lemma truthy_unknown_user : forall id, truthy (unknown_user id) = true.
Proof. reflexivity. Qed.

Lemma fetchAndCacheUser_miss : forall resp userId c,
  truthy userId = true -> cached (js_to_string userId) (cachedUsers c) = false ->
  fetchAndCacheUser resp userId c =
    let user := match resp userId with Ok (Some u) => u | _ => unknown_user userId end in
    (user, mkUserCache (obj_put (js_to_string userId) user (cachedUsers c))
                       (user_requests c ++ [userId])%list).
Proof.
  intros resp userId c Ht Hc. unfold fetchAndCacheUser. rewrite Ht. simpl negb. cbv iota.
  unfold cached in Hc.
  destruct (assoc_first (js_to_string userId) (cachedUsers c)) as [u|] eqn:E.
  - simpl in Hc. rewrite Hc.
    destruct (resp userId) as [[u'|]|e]; reflexivity.
  - destruct (resp userId) as [[u'|]|e]; reflexivity.
Qed.

(** [X9]. [fetchAndCacheUser] resolves a falsy id to the Unknown user and a
    cached (truthy) id to its cached entry, in both cases without a
    request; any other id costs exactly one [GET_USER_DETAILS_QUERY],
    never fails (a missing user or an error gives the Unknown user with
    that id), and is cached, so that a second call for the same id makes
    no request and returns the same user, unless the user the API returned
    was falsy. *)
Theorem X9_fetch_and_cache_user : forall resp userId c,
  (truthy userId = false -> fetchAndCacheUser resp userId c = (unknown_user JNull, c)) /\
  (truthy userId = true -> cached (js_to_string userId) (cachedUsers c) = true ->
     exists u, assoc_first (js_to_string userId) (cachedUsers c) = Some u /\
               fetchAndCacheUser resp userId c = (u, c)) /\
  (truthy userId = true -> cached (js_to_string userId) (cachedUsers c) = false ->
     let r := fetchAndCacheUser resp userId c in
     user_requests (snd r) = (user_requests c ++ [userId])%list /\
     fst r = match resp userId with Ok (Some u) => u | _ => unknown_user userId end /\
     (truthy (fst r) = true -> fetchAndCacheUser resp userId (snd r) = r)).
Proof.
  intros resp userId c. split; [|split].
  - intros H. unfold fetchAndCacheUser. rewrite H. reflexivity.
  - intros Ht Hc. unfold cached in Hc.
    destruct (assoc_first (js_to_string userId) (cachedUsers c)) as [u|] eqn:E; [|discriminate].
    exists u. split; [reflexivity|].
    unfold fetchAndCacheUser. rewrite Ht, E. simpl in Hc. rewrite Hc. reflexivity.
  - intros Ht Hc. cbv zeta. rewrite (fetchAndCacheUser_miss resp userId c Ht Hc). cbv zeta.
    simpl fst. simpl snd. split; [reflexivity|]. split; [reflexivity|].
    intros Hu. unfold fetchAndCacheUser at 1. rewrite Ht. simpl negb. cbv iota. simpl cachedUsers.
    rewrite assoc_first_obj_put_same, Hu. reflexivity.
Qed.

Lemma X9_fetch_and_cache_user_witness :
  let resp := fun _ : json => Ok (Some (JObj [("id", JNum 7); ("name", JStr "Ann")])) in
  user_requests (snd (fetchAndCacheUser resp (JNum 7) (mkUserCache [] []))) = [JNum 7] /\
  fetchAndCacheUser resp (JNum 7) (snd (fetchAndCacheUser resp (JNum 7) (mkUserCache [] []))) =
    fetchAndCacheUser resp (JNum 7) (mkUserCache [] []).
Proof.
  cbv zeta.
  destruct (proj2 (proj2 (X9_fetch_and_cache_user
              (fun _ : json => Ok (Some (JObj [("id", JNum 7); ("name", JStr "Ann")])))
              (JNum 7) (mkUserCache [] []))) eq_refl eq_refl) as [H1 [_ H3]].
  split; [exact H1 | apply H3; vm_compute; reflexivity].
Defined.

(* ------------------------------------------------------------------ *)
(** ** The prefetch of persons *)

Lemma NoDup_app_self : forall {A} (l : list A), l <> [] -> ~ NoDup (l ++ l).
Proof.
  intros A [|x l] Hne H; [congruence|].
  simpl in H. inversion H as [|? ? Hx _]. apply Hx. apply in_or_app. right. left. reflexivity.
Qed.

Lemma in_prefetch_user_ids : forall jp cols cache items id,
  In id (prefetch_user_ids jp cols cache items) ->
  truthy id = true /\ cached (js_to_string id) cache = false.
Proof.
  intros jp cols cache items id Hin.
  apply in_flat_map in Hin as [item [_ Hin]]. apply in_flat_map in Hin as [cv [_ Hin]].
  unfold cv_person_ids in Hin.
  destruct (find_meta (cv_id cv) cols) as [m|]; [|destruct Hin].
  destruct (is_person_type (meta_type m)); [|destruct Hin].
  destruct (cv_value cv) as [v|]; [|destruct Hin].
  destruct (blank_value (Some v)); [destruct Hin|].
  destruct (jp v) as [pv|]; [|destruct Hin].
  destruct (persons_of pv) as [ps|]; [|destruct Hin].
  apply in_flat_map in Hin as [p [_ Hin]].
  destruct (get_prop p "id") as [_|[idv|]]; [destruct Hin| |destruct Hin].
  destruct (truthy idv && negb (cached (js_to_string idv) cache)) eqn:E; [|destruct Hin].
  destruct Hin as [<-|[]]. apply andb_true_iff in E as [E1 E2].
  split; [exact E1|]. apply negb_true_iff, E2.
Qed.

(** [X10]. One run of the prefetch effect passes [fetchAndCacheUser] only
    truthy person ids missing from [cachedUsers], and each of those calls
    issues its own user request, because all calls read the same
    [cachedUsers]; the [userIdsToFetch] set does not deduplicate them. So
    a person named by two different items [a] and [b] of [boardItems],
    wherever they stand, is passed to [fetchAndCacheUser] twice and
    requested twice; in particular [boardItems ++ boardItems] yields every
    id twice. *)
Theorem X10_prefetch_requests : forall jp cols c items,
  let ids := prefetch_user_ids jp cols (cachedUsers c) items in
  (forall id, In id ids -> truthy id = true /\ cached (js_to_string id) (cachedUsers c) = false) /\
  (forall resp id, In id ids ->
     user_requests (snd (fetchAndCacheUser resp id c)) = (user_requests c ++ [id])%list) /\
  (forall pre a mid b post id,
     items = (pre ++ a :: mid ++ b :: post)%list ->
     In id (prefetch_user_ids jp cols (cachedUsers c) [a]) ->
     In id (prefetch_user_ids jp cols (cachedUsers c) [b]) ->
     (exists l1 l2 l3, ids = (l1 ++ id :: l2 ++ id :: l3)%list) /\ ~ NoDup ids) /\
  prefetch_user_ids jp cols (cachedUsers c) (items ++ items) = (ids ++ ids)%list /\
  (ids <> [] -> ~ NoDup (prefetch_user_ids jp cols (cachedUsers c) (items ++ items))).
Proof.
  intros jp cols c items. cbv zeta.
  assert (Hd : forall l r, prefetch_user_ids jp cols (cachedUsers c) (l ++ r) =
                 (prefetch_user_ids jp cols (cachedUsers c) l ++
                  prefetch_user_ids jp cols (cachedUsers c) r)%list)
    by (intros l r; unfold prefetch_user_ids; apply flat_map_app).
  split; [|split; [|split; [|split]]].
  - apply in_prefetch_user_ids.
  - intros resp id Hin. destruct (in_prefetch_user_ids _ _ _ _ _ Hin) as [Ht Hc].
    rewrite (fetchAndCacheUser_miss resp id c Ht Hc). reflexivity.
  - intros pre a mid b post id Hitems Ha Hb.
    apply in_split in Ha as [x1 [x2 Ha]]. apply in_split in Hb as [y1 [y2 Hb]].
    assert (Hs : prefetch_user_ids jp cols (cachedUsers c) items =
      ((prefetch_user_ids jp cols (cachedUsers c) pre ++ x1) ++ id ::
       (x2 ++ prefetch_user_ids jp cols (cachedUsers c) mid ++ y1) ++ id ::
       (y2 ++ prefetch_user_ids jp cols (cachedUsers c) post))%list).
    { rewrite Hitems, Hd.
      change (a :: (mid ++ b :: post))%list with ([a] ++ (mid ++ ([b] ++ post)))%list.
      rewrite !Hd, Ha, Hb. rewrite <- ?app_assoc. cbn [app]. rewrite <- ?app_assoc.
      reflexivity. }
    split; [eexists _, _, _; exact Hs|].
    rewrite Hs. intros Hnd. apply NoDup_remove_2 in Hnd. apply Hnd.
    apply in_or_app. right. apply in_or_app. right. left. reflexivity.
  - apply Hd.
  - intros Hne. rewrite Hd. apply NoDup_app_self, Hne.
Qed.

Lemma X10_prefetch_requests_witness :
  ~ NoDup (prefetch_user_ids parse [person_meta] [] [person_item; person_item_6]).
Proof.
  exact (proj2 (proj1 (proj2 (proj2 (X10_prefetch_requests parse [person_meta] (mkUserCache [] [])
                                         [person_item; person_item_6])))
           [] person_item [] person_item_6 [] (JNum 7) eq_refl
           ltac:(vm_compute; left; reflexivity) ltac:(vm_compute; left; reflexivity))).
Defined.

(* ------------------------------------------------------------------ *)
(** ** The cost of one executed query *)

Lemma queryMonday_cost : forall api r d s,
  let s' := snd (queryMonday api r d s) in
  (attempts s' <= attempts s + S r)%nat /\
  (length (sleeps s') <= length (sleeps s) + r)%nat.
Proof.
  intros api r. induction r as [|r IH]; intros d s; cbv zeta.
  - simpl. destruct (api (attempts s)); simpl; lia.
  - simpl.
    destruct (api (attempts s)) as [dd|msgs|e];
      repeat match goal with |- context [if ?b then _ else _] => destruct b end;
      match goal with
      | |- context [queryMonday api r ?d' ?s'] =>
          destruct (IH d' s') as [H1 H2]; unfold sleep in *; simpl in *;
          rewrite ?length_app in *; simpl in *; lia
      | |- _ => simpl; lia
      end.
Qed.

Lemma retry_cost : forall fn A B,
  (forall s, attempts (snd (fn s)) <= attempts s + A /\
             length (sleeps (snd (fn s))) <= length (sleeps s) + B)%nat ->
  forall R D F s,
  let s' := snd (retry fn R D F s) in
  (attempts s' <= attempts s + S R * A)%nat /\
  (length (sleeps s') <= length (sleeps s) + S R * B + R)%nat.
Proof.
  intros fn A B Hfn R. induction R as [|R IH]; intros D F s; cbv zeta; simpl.
  - destruct (Hfn s) as [H1 H2].
    destruct (fn s) as [[d|e] s1]; simpl in *; lia.
  - destruct (Hfn s) as [H1 H2].
    destruct (fn s) as [[d|e] s1]; simpl in *; [lia|].
    destruct (is_transient e); simpl; [|lia].
    destruct (IH (D * F)%Z F (sleep D s1)) as [H3 H4]. unfold sleep in *; simpl in *.
    rewrite length_app in H4. simpl in H4. lia.
Qed.

(** [X12]. One query through the call sites' executor
    ([retry(() => queryMonday(query))]) calls [monday.api] at most 24
    times and sleeps at most 23 times, whatever the API answers; the bound
    is reached when every call reports both a rate limit (retried inside
    [queryMonday]) and a concurrency limit (retried by [retry]). *)
Theorem X12_execute_cost :
  (forall api s,
     (attempts (snd (execute api s)) <= attempts s + 24)%nat /\
     (length (sleeps (snd (execute api s))) <= length (sleeps s) + 23)%nat) /\
  attempts (snd (execute api_always_limited exec0)) = 24%nat /\
  length (sleeps (snd (execute api_always_limited exec0))) = 23%nat.
Proof.
  split.
  - intros api s. unfold execute.
    pose proof (retry_cost (queryMonday api 3 500) 4 3
                  (fun s => queryMonday_cost api 3 500 s) 5 2000 2 s) as H.
    cbv zeta in H. destruct H as [H1 H2]. split; lia.
  - split; vm_compute; reflexivity.
Qed.

(* ------------------------------------------------------------------ *)
(** ** The account URL *)

(** [X11]. [fetchMondayBaseUrl] keeps the current base URL when
    [monday.get('context')] fails.  When the context has a truthy
    [data.accountUrl], the slug query is never consulted and the URL is
    read from [data.account.url] instead: with no [data.account] (or a null
    one) the URL is left as it was, and with an [account] object the URL
    becomes its [url] (possibly undefined).  Without [accountUrl], a truthy
    string slug [s] gives ["https://" ++ s ++ ".monday.com"], and a failing
    slug query or a falsy slug keeps the URL. *)
Theorem X11_base_url : forall ctx slug_response b,
  (forall e, fetchMondayBaseUrl (Err e) slug_response b = b) /\
  (path_value ctx ["data"; "accountUrl"] <> None ->
   (forall d, get_prop ctx "data" = inr (Some d) ->
      get_prop d "account" = inr None \/ get_prop d "account" = inr (Some JNull)) ->
   fetchMondayBaseUrl (Ok ctx) slug_response b = b) /\
  (forall d fs, path_value ctx ["data"; "accountUrl"] <> None ->
   get_prop ctx "data" = inr (Some d) -> get_prop d "account" = inr (Some (JObj fs)) ->
   fetchMondayBaseUrl (Ok ctx) slug_response b = assoc_last "url" fs) /\
  (forall r s, path_value ctx ["data"; "accountUrl"] = None -> slug_response = Ok r ->
   path_value r ["data"; "account"; "slug"] = Some (JStr s) ->
   fetchMondayBaseUrl (Ok ctx) slug_response b = Some (JStr ("https://" ++ s ++ ".monday.com"))) /\
  (path_value ctx ["data"; "accountUrl"] = None ->
   (forall r, slug_response = Ok r -> path_value r ["data"; "account"; "slug"] = None) ->
   fetchMondayBaseUrl (Ok ctx) slug_response b = b).
Proof.
  intros ctx slug b. split; [|split; [|split; [|split]]].
  - intros e. reflexivity.
  - intros Hu Hacc. unfold fetchMondayBaseUrl.
    destruct (path_value ctx ["data"; "accountUrl"]); [|congruence].
    destruct (get_prop ctx "data") as [u|[d|]] eqn:Ed; try reflexivity.
    destruct (Hacc d eq_refl) as [-> | ->]; reflexivity.
  - intros d fs Hu Hd Ha. unfold fetchMondayBaseUrl.
    destruct (path_value ctx ["data"; "accountUrl"]); [|congruence].
    rewrite Hd, Ha. reflexivity.
  - intros r s Hu Hr Hs. unfold fetchMondayBaseUrl. rewrite Hu, Hr, Hs. reflexivity.
  - intros Hu Hs. unfold fetchMondayBaseUrl. rewrite Hu.
    destruct slug as [r|e]; [|reflexivity]. rewrite (Hs r eq_refl). reflexivity.
Qed.

Lemma X11_base_url_witness :
  let ctx := JObj [("data", JObj [("accountUrl", JStr "https://acme.monday.com")])] in
  let slug := Ok (JObj [("data", JObj [("account", JObj [("slug", JStr "acme")])])]) in
  fetchMondayBaseUrl (Ok ctx) slug initial_base_url = initial_base_url /\
  fetchMondayBaseUrl (Ok (JObj [])) slug initial_base_url =
    Some (JStr ("https://" ++ "acme" ++ ".monday.com")).
Proof.
  cbv zeta. split.
  - apply (proj1 (proj2 (X11_base_url
      (JObj [("data", JObj [("accountUrl", JStr "https://acme.monday.com")])])
      (Ok (JObj [("data", JObj [("account", JObj [("slug", JStr "acme")])])]))
      initial_base_url))).
    + vm_compute. discriminate.
    + intros d Hd. vm_compute in Hd. injection Hd as <-. left. vm_compute. reflexivity.
  - apply (proj1 (proj2 (proj2 (proj2 (X11_base_url (JObj [])
      (Ok (JObj [("data", JObj [("account", JObj [("slug", JStr "acme")])])]))
      initial_base_url)))) (JObj [("data", JObj [("account", JObj [("slug", JStr "acme")])])])).
    + reflexivity.
    + reflexivity.
    + vm_compute. reflexivity.
Defined.

(* ------------------------------------------------------------------ *)
(** ** Outcomes of a board refresh *)

Lemma fetch_items_loop_ok : forall ir abd bs cols acc,
  cols <> [] -> (forall b, In b bs -> exists r, ir b cols = Ok r) ->
  fetch_items_loop ir abd bs cols acc =
  Ok (acc ++ flat_map (fun b => match ir b cols with
                                | Ok (Some its) => map (tag_item abd b) its
                                | _ => []
                                end) bs)%list.
Proof.
  intros ir abd bs cols. induction bs as [|b bs IH]; intros acc Hc Hok; simpl.
  - rewrite app_nil_r. reflexivity.
  - destruct cols as [|c cs]; [congruence|].
    destruct (Hok b (or_introl eq_refl)) as [r Hr]. rewrite Hr.
    destruct r as [its|].
    + rewrite IH by (auto; intros b' Hb'; apply Hok; right; exact Hb').
      rewrite app_assoc. reflexivity.
    + rewrite IH by (auto; intros b' Hb'; apply Hok; right; exact Hb').
      reflexivity.
Qed.

Lemma fetch_items_loop_no_columns : forall ir abd bs acc,
  fetch_items_loop ir abd bs [] acc = Ok acc.
Proof. intros ir abd bs. induction bs as [|b bs IH]; intros acc; simpl; auto. Qed.

Lemma fetch_items_loop_first_error : forall ir abd pre b post cols acc e,
  cols <> [] -> (forall b', In b' pre -> exists r, ir b' cols = Ok r) -> ir b cols = Err e ->
  fetch_items_loop ir abd (pre ++ b :: post) cols acc = Err e.
Proof.
  intros ir abd pre. induction pre as [|b0 pre IH]; intros b post cols acc e Hc Hok He; simpl.
  - destruct cols as [|c cs]; [congruence|]. rewrite He. reflexivity.
  - destruct cols as [|c cs]; [congruence|].
    destruct (Hok b0 (or_introl eq_refl)) as [r Hr]. rewrite Hr.
    destruct r as [its|]; apply IH; auto; intros b' Hb'; apply Hok; right; exact Hb'.
Qed.

(** [X13]. When the columns query and every selected board's items query
    succeed (with columns selected), a refresh ends with no error, polling
    off, [allBoardsData] set to the selected boards of the columns
    response, and [boardItems] the boards' items in selection order, each
    tagged with the board it was fetched for (a selected board) and that
    board's name or [Board <id>]. *)
Theorem X13_refresh_success : forall cr ir sel cols s boards,
  sel <> [] -> cols <> [] -> cr = Ok boards ->
  (forall b, In b sel -> exists r, ir b cols = Ok r) ->
  let abd := collect_boards sel (match boards with Some bs => bs | None => [] end) in
  let s' := fetchBoardData cr ir sel cols s in
  allBoardsData s' = abd /\
  boardItems s' = flat_map (fun b => match ir b cols with
                                     | Ok (Some its) => map (tag_item abd b) its
                                     | _ => []
                                     end) sel /\
  columnsError s' = None /\ itemsError s' = None /\ isPolling s' = false /\
  (forall it, In it (boardItems s') ->
     In (boardId it) sel /\ boardName it = board_name abd (boardId it)).
Proof.
  intros cr ir sel cols s boards Hsel Hc Hcr Hok. cbv zeta.
  unfold fetchBoardData. destruct sel as [|b0 sel']; [congruence|]. rewrite Hcr. cbv zeta.
  rewrite (fetch_items_loop_ok ir _ (b0 :: sel') cols [] Hc Hok).
  cbn [app allBoardsData boardItems columnsError itemsError isPolling
       set_isPolling set_boardItems set_allBoardsData set_itemsError set_columnsError].
  split; [reflexivity|]. split; [reflexivity|]. split; [reflexivity|]. split; [reflexivity|].
  split; [reflexivity|].
  intros it Hin. apply in_flat_map in Hin as [b [Hb Hin]].
  destruct (ir b cols) as [[its|]|e]; [|destruct Hin|destruct Hin].
  apply in_map_iff in Hin as [ri [<- _]]. simpl. split; [exact Hb|reflexivity].
Qed.

(** [X14]. With boards but no columns selected, a refresh makes no items
    request: its result does not depend on the items responses, and when
    the columns query succeeds the items list is emptied without error. *)
Theorem X14_refresh_no_columns : forall cr ir ir' sel s boards,
  sel <> [] ->
  fetchBoardData cr ir sel [] s = fetchBoardData cr ir' sel [] s /\
  (cr = Ok boards ->
   boardItems (fetchBoardData cr ir sel [] s) = [] /\
   columnsError (fetchBoardData cr ir sel [] s) = None /\
   itemsError (fetchBoardData cr ir sel [] s) = None).
Proof.
  intros cr ir ir' sel s boards Hsel. unfold fetchBoardData.
  destruct sel as [|b0 sel']; [congruence|].
  destruct cr as [bo|e].
  - cbv zeta. rewrite !fetch_items_loop_no_columns. split; [reflexivity|].
    intros _. simpl. auto.
  - split; [reflexivity|]. discriminate.
Qed.

(** [X15]. A failed refresh reports the first error by its message alone:
    when the items query of a selected board fails after the earlier
    boards' succeeded, or the columns query fails, the error is shown as a
    columns error if its message contains "columns" and as an items error
    otherwise, [boardItems] keeps its old value and polling ends; after an
    items failure [allBoardsData] has been updated to the new boards, after
    a columns failure it is unchanged. *)
Theorem X15_refresh_failure : forall cr ir pre b post cols s e,
  let sel := (pre ++ b :: post)%list in
  let errs := if includes (err_message e) "columns"
              then (Some ("Error loading columns: " ++ err_message e ++ ". Please check selected boards."),
                    None)
              else (None, Some ("Error loading items: " ++ err_message e ++ ".")) in
  (forall boards, cr = Ok boards -> cols <> [] ->
     (forall b', In b' pre -> exists r, ir b' cols = Ok r) -> ir b cols = Err e ->
     let s' := fetchBoardData cr ir sel cols s in
     (columnsError s', itemsError s') = errs /\
     boardItems s' = boardItems s /\ isPolling s' = false /\
     allBoardsData s' = collect_boards sel (match boards with Some bs => bs | None => [] end)) /\
  (cr = Err e ->
     let s' := fetchBoardData cr ir sel cols s in
     (columnsError s', itemsError s') = errs /\
     boardItems s' = boardItems s /\ isPolling s' = false /\
     allBoardsData s' = allBoardsData s).
Proof.
  intros cr ir pre b post cols s e. cbv zeta.
  assert (Hsel : exists b1 r, (pre ++ b :: post)%list = b1 :: r)
    by (destruct pre as [|b1 r]; simpl; eauto).
  destruct Hsel as [b1 [r Hsel]].
  split.
  - intros boards Hcr Hc Hok He. unfold fetchBoardData. rewrite Hsel, Hcr. cbv zeta.
    rewrite <- Hsel, (fetch_items_loop_first_error ir _ pre b post cols [] e Hc Hok He).
    unfold report_error. destruct (includes (err_message e) "columns"); simpl; auto.
  - intros Hcr. unfold fetchBoardData. rewrite Hsel, Hcr.
    unfold report_error. destruct (includes (err_message e) "columns"); simpl; auto.
Qed.

Lemma X13_refresh_success_witness :
  boardItems (fetchBoardData (Ok (Some [mkBoardCols "b1" "B1" None]))
                (fun _ _ => Ok (Some [raw_b1])) ["b1"] ["c1"] (mkBoardState [] [] None None false))
  = [tag_item [("b1", mkBoardInfo "b1" "B1" [])] "b1" raw_b1].
Proof.
  destruct (X13_refresh_success (Ok (Some [mkBoardCols "b1" "B1" None]))
              (fun _ _ => Ok (Some [raw_b1])) ["b1"] ["c1"] (mkBoardState [] [] None None false)
              (Some [mkBoardCols "b1" "B1" None])
              ltac:(discriminate) ltac:(discriminate) eq_refl
              (fun b _ => ex_intro _ (Some [raw_b1]) eq_refl)) as [_ [H _]].
  rewrite H. vm_compute. reflexivity.
Defined.

Lemma X14_refresh_no_columns_witness :
  boardItems (fetchBoardData (Ok None) (fun _ _ => Err (new_Error "boom")) ["b1"] []
                (mkBoardState [] [item_old] None None false)) = [].
Proof.
  exact (proj1 (proj2 (X14_refresh_no_columns (Ok None) (fun _ _ => Err (new_Error "boom"))
                          (fun _ _ => Ok None) ["b1"] (mkBoardState [] [item_old] None None false) None
                          ltac:(discriminate)) eq_refl)).
Defined.

Lemma X15_refresh_failure_witness :
  columnsError (fetchBoardData (Ok None)
                  (fun _ _ => Err (new_Error "Invalid columns requested")) ["b1"] ["c1"]
                  (mkBoardState [] [item_old] None None false))
  = Some ("Error loading columns: " ++ "Invalid columns requested" ++ ". Please check selected boards.").
Proof.
  destruct (proj1 (X15_refresh_failure (Ok None)
                     (fun _ _ => Err (new_Error "Invalid columns requested")) [] "b1" [] ["c1"]
                     (mkBoardState [] [item_old] None None false) (new_Error "Invalid columns requested"))
              None eq_refl ltac:(discriminate) (fun b' (H : In b' []) => match H with end) eq_refl)
    as [H _].
  exact (f_equal fst H).
Defined.

(* ------------------------------------------------------------------ *)
(** ** Editing the filter map *)

Lemma in_keys_obj_set : forall k c v m,
  In k (map fst (obj_set c v m)) <-> k = c \/ In k (map fst m).
Proof.
  intros k c v m. induction m as [|[k' v'] m IH]; simpl; [split; intros [H|[]]; left; symmetry; exact H|].
  destruct (String.eqb c k') eqn:E; simpl.
  - apply String.eqb_eq in E. subst k'.
    split; [intros [H|H]; [right; left; exact H | right; right; exact H]
           |intros [H|[H|H]]; [left; symmetry; exact H | left; exact H | right; exact H]].
  - rewrite IH. tauto.
Qed.

Lemma NoDup_obj_set : forall c v m, NoDup (map fst m) -> NoDup (map fst (obj_set c v m)).
Proof.
  intros c v m. induction m as [|[k' v'] m IH]; simpl; intros Hnd.
  - constructor; [intros []|constructor].
  - inversion Hnd as [|? ? Hk Hnd']; subst.
    destruct (String.eqb c k') eqn:E; simpl.
    + apply String.eqb_eq in E. subst. constructor; assumption.
    + constructor; [|apply IH, Hnd'].
      rewrite in_keys_obj_set. intros [He|Hin]; [|contradiction].
      subst. rewrite String.eqb_refl in E. discriminate.
Qed.

Lemma in_keys_obj_del : forall k c m, In k (map fst (obj_del c m)) -> In k (map fst m).
Proof.
  intros k c m. induction m as [|[k' v'] m IH]; simpl; [tauto|].
  destruct (String.eqb c k'); simpl; [tauto|]. intros [H|H]; [left; exact H|right; apply IH, H].
Qed.

Lemma NoDup_obj_del : forall c m, NoDup (map fst m) -> NoDup (map fst (obj_del c m)).
Proof.
  intros c m. induction m as [|[k' v'] m IH]; simpl; intros Hnd; [constructor|].
  inversion Hnd as [|? ? Hk Hnd']; subst.
  destruct (String.eqb c k'); [exact Hnd'|]. simpl. constructor; [|apply IH, Hnd'].
  intros H. apply Hk. eapply in_keys_obj_del, H.
Qed.

Lemma obj_set_same : forall c x m, assoc_first c m = Some x -> obj_set c x m = m.
Proof.
  intros c x m. induction m as [|[k' v'] m IH]; simpl; [discriminate|].
  destruct (String.eqb c k') eqn:E.
  - intros H. injection H as <-. apply String.eqb_eq in E. subst. reflexivity.
  - intros H. rewrite IH by exact H. reflexivity.
Qed.

Lemma obj_set_twice : forall c x y m, obj_set c x (obj_set c y m) = obj_set c x m.
Proof.
  intros c x y m. induction m as [|[k' v'] m IH]; simpl.
  - rewrite String.eqb_refl. reflexivity.
  - destruct (String.eqb c k') eqn:E; simpl.
    + rewrite String.eqb_refl. reflexivity.
    + rewrite E, IH. reflexivity.
Qed.

Lemma obj_del_absent : forall c m, ~ In c (map fst m) -> obj_del c m = m.
Proof.
  intros c m. induction m as [|[k' v'] m IH]; simpl; intros H; [reflexivity|].
  destruct (String.eqb c k') eqn:E.
  - apply String.eqb_eq in E. subst. exfalso. apply H. left. reflexivity.
  - rewrite IH by tauto. reflexivity.
Qed.

Lemma assoc_first_None_not_in : forall {A} k (m : list (string * A)),
  assoc_first k m = None -> ~ In k (map fst m).
Proof.
  intros A k m. induction m as [|[k' v'] m IH]; simpl; intros H; [tauto|].
  destruct (String.eqb k k') eqn:E; [discriminate|].
  intros [He|Hin]; [subst; rewrite String.eqb_refl in E; discriminate|].
  exact (IH H Hin).
Qed.

(** [X17]. The filter handlers keep the filter keys distinct and act on
    one key only: checking value [v] in column [c] appends [v] to [c]'s
    current values (or to [[]] when [c] had none), unchecking removes every
    occurrence of [v], and clearing removes the key [c]; every other
    column's values are unchanged. *)
Theorem X17_filter_handlers : forall m c v k,
  NoDup (map fst m) ->
  let cur := match assoc_first c m with Some l => l | None => [] end in
  NoDup (map fst (handleFilterChange c v true m)) /\
  NoDup (map fst (handleFilterChange c v false m)) /\
  NoDup (map fst (handleClearFilter c m)) /\
  assoc_first k (handleFilterChange c v true m) =
    (if String.eqb k c then Some (cur ++ [v])%list else assoc_first k m) /\
  assoc_first k (handleFilterChange c v false m) =
    (if String.eqb k c then Some (filter (fun x => negb (String.eqb x v)) cur) else assoc_first k m) /\
  assoc_first k (handleClearFilter c m) = (if String.eqb k c then None else assoc_first k m).
Proof.
  intros m c v k Hnd. cbv zeta. unfold handleFilterChange, handleClearFilter.
  split; [apply NoDup_obj_set, Hnd|]. split; [apply NoDup_obj_set, Hnd|].
  split; [apply NoDup_obj_del, Hnd|].
  rewrite !assoc_first_obj_set. split; [reflexivity|]. split; [reflexivity|].
  apply assoc_first_obj_del, Hnd.
Qed.

Lemma X17_filter_handlers_witness :
  assoc_first "status" (handleFilterChange "status" "Done" false [("status", ["Done"; "Stuck"; "Done"])])
    = Some ["Stuck"].
Proof.
  exact (proj1 (proj2 (proj2 (proj2 (proj2 (X17_filter_handlers [("status", ["Done"; "Stuck"; "Done"])]
            "status" "Done" "status" ltac:(repeat constructor; simpl; tauto))))))).
Defined.

(** [X16]. Checking a value that the column's filter does not hold and then
    unchecking it gives back the same filtered view (filter keys
    distinct); when the column already had a filter entry, the filter map
    itself is restored. *)
Theorem X16_check_uncheck : forall json_parse allBoardColumns cols m c v uid items,
  NoDup (map fst m) ->
  ~ In v (match assoc_first c m with Some l => l | None => [] end) ->
  filter_items json_parse allBoardColumns cols
    (handleFilterChange c v false (handleFilterChange c v true m)) uid items =
  filter_items json_parse allBoardColumns cols m uid items /\
  (assoc_first c m <> None ->
   handleFilterChange c v false (handleFilterChange c v true m) = m).
Proof.
  intros jp abc cols m c v uid items Hnd Hv.
  set (cur := match assoc_first c m with Some l => l | None => [] end) in Hv.
  assert (Hfilt : filter (fun x => negb (String.eqb x v)) (cur ++ [v])%list = cur).
  { rewrite filter_app. simpl. rewrite String.eqb_refl. simpl. rewrite app_nil_r.
    apply filter_all_true. intros x Hx. apply negb_true_iff, String.eqb_neq.
    intros ->. exact (Hv Hx). }
  assert (Hrt : handleFilterChange c v false (handleFilterChange c v true m) = obj_set c cur m).
  { unfold handleFilterChange. cbv zeta. rewrite assoc_first_obj_set, String.eqb_refl.
    cbv beta iota.
    change (match assoc_first c m with Some l => l | None => [] end) with cur.
    rewrite Hfilt. apply obj_set_twice. }
  rewrite Hrt. split.
  - destruct (assoc_first c m) as [l|] eqn:E.
    + subst cur. rewrite (obj_set_same c l m E). reflexivity.
    + subst cur. unfold filter_items.
      rewrite isFilterByCurrentUserActive_empty by exact Hnd.
      rewrite (obj_del_absent c m (assoc_first_None_not_in c m E)).
      apply filter_ext. intros item.
      rewrite forallb_obj_set_empty, (obj_del_absent c m (assoc_first_None_not_in c m E)).
      reflexivity.
  - intros Hsome. destruct (assoc_first c m) as [l|] eqn:E; [|congruence].
    subst cur. apply obj_set_same, E.
Qed.

Lemma X16_check_uncheck_witness :
  handleFilterChange "status" "Done" false (handleFilterChange "status" "Done" true [("status", ["Stuck"])])
    = [("status", ["Stuck"])].
Proof.
  exact (proj2 (X16_check_uncheck parse [] [] [("status", ["Stuck"])] "status" "Done" JNull []
                  ltac:(repeat constructor; simpl; tauto) ltac:(simpl; intuition discriminate))
               ltac:(discriminate)).
Defined.

(* ------------------------------------------------------------------ *)
(** ** The column list of the items query *)

Lemma append_assoc_str : forall a b c, ((a ++ b) ++ c)%string = (a ++ (b ++ c))%string.
Proof. induction a as [|x a IH]; intros b c; simpl; [reflexivity|]. rewrite IH. reflexivity. Qed.

Lemma append_nil_str : forall a, (a ++ "")%string = a.
Proof. induction a as [|x a IH]; simpl; [reflexivity|]. rewrite IH. reflexivity. Qed.

Lemma split_comma_acc_app : forall s acc rest,
  no_comma s -> split_comma_acc acc (s ++ rest) = split_comma_acc (acc ++ s) rest.
Proof.
  induction s as [|c s IH]; intros acc rest Hs; simpl.
  - rewrite append_nil_str. reflexivity.
  - assert (Hc : (nat_of_ascii c =? 44)%nat = false)
      by (apply Nat.eqb_neq, Hs; left; reflexivity).
    rewrite Hc, IH by (intros c' Hc'; apply Hs; right; exact Hc').
    rewrite append_assoc_str. reflexivity.
Qed.

Lemma split_comma_sep : forall acc rest,
  split_comma_acc acc ("," ++ rest) = acc :: split_comma_acc "" rest.
Proof. reflexivity. Qed.

Lemma no_comma_quote : forall id, no_comma id -> no_comma (quote_id id).
Proof.
  intros id H c Hc. simpl in Hc. destruct Hc as [<-|Hc]; [discriminate|].
  unfold list_ascii_of_string in Hc. fold list_ascii_of_string in Hc.
  assert (Happ : forall a b, list_ascii_of_string (a ++ b) = (list_ascii_of_string a ++ list_ascii_of_string b)%list)
    by (induction a as [|x a IHa]; intros b; simpl; [reflexivity|]; rewrite IHa; reflexivity).
  rewrite Happ in Hc. apply in_app_or in Hc as [Hc|[<-|[]]]; [apply H, Hc|discriminate].
Qed.

Lemma unquote_quote : forall id, unquote (quote_id id) = id.
Proof.
  intros id. unfold unquote, quote_id. simpl String.length. rewrite length_app_str. simpl.
  replace (String.length id + 1 - 1)%nat with (String.length id) by lia.
  apply substring_prefix.
Qed.

Lemma split_join_quoted : forall ids,
  ids <> [] -> (forall id, In id ids -> no_comma id) ->
  split_comma_acc "" (join "," (map quote_id ids)) = map quote_id ids.
Proof.
  intros ids. induction ids as [|x ids IH]; intros Hne Hnc; [congruence|].
  destruct ids as [|y ids].
  - change (join "," (map quote_id [x])) with (quote_id x).
    rewrite <- (append_nil_str (quote_id x)) at 1.
    rewrite split_comma_acc_app by (apply no_comma_quote, Hnc; left; reflexivity).
    reflexivity.
  - change (join "," (map quote_id (x :: y :: ids)))
      with (quote_id x ++ "," ++ join "," (map quote_id (y :: ids)))%string.
    rewrite split_comma_acc_app by (apply no_comma_quote, Hnc; left; reflexivity).
    rewrite split_comma_sep. cbn [append].
    rewrite IH; [reflexivity|discriminate|intros id Hid; apply Hnc; right; exact Hid].
Qed.

(** [X18]. The [column_values(ids: [...])] list of the items query names
    exactly the selected column ids, in order: read back (split at commas,
    quotes dropped) it gives the ids again whenever no id contains a comma,
    so distinct selections give distinct queries. An empty selection
    gives an empty list. *)
Theorem X18_column_ids_list : forall ids ids',
  ids <> [] -> (forall id, In id ids -> no_comma id) ->
  read_column_ids (column_ids_list ids) = ids /\
  (ids' <> [] -> (forall id, In id ids' -> no_comma id) ->
   column_ids_list ids = column_ids_list ids' -> ids = ids') /\
  column_ids_list [] = "".
Proof.
  assert (Hrt : forall ids, ids <> [] -> (forall id, In id ids -> no_comma id) ->
                read_column_ids (column_ids_list ids) = ids).
  { intros ids Hne Hnc. unfold read_column_ids, column_ids_list.
    change (fun id => String dq (id ++ String dq EmptyString)) with quote_id.
    rewrite split_join_quoted by assumption. rewrite map_map.
    erewrite map_ext; [apply map_id|]. apply unquote_quote. }
  intros ids ids' Hne Hnc. split; [apply Hrt; assumption|]. split; [|reflexivity].
  intros Hne' Hnc' Heq.
  rewrite <- (Hrt ids Hne Hnc), <- (Hrt ids' Hne' Hnc'), Heq. reflexivity.
Qed.

Lemma X18_column_ids_list_witness :
  read_column_ids (column_ids_list ["status"; "date4"; "person"]) = ["status"; "date4"; "person"].
Proof.
  apply (proj1 (X18_column_ids_list ["status"; "date4"; "person"] [] ltac:(discriminate)
    ltac:(intros id Hid c Hc; simpl in Hid;
          destruct Hid as [<-|[<-|[<-|[]]]]; simpl in Hc; intuition (subst; discriminate)))).
Defined.

(* ------------------------------------------------------------------ *)
(** ** Status colours *)

Lemma js_space_to_lower : forall c, is_js_space (to_lower_ascii c) = is_js_space c.
Proof.
  intros [b0 b1 b2 b3 b4 b5 b6 b7].
  destruct b0, b1, b2, b3, b4, b5, b6, b7; reflexivity.
Qed.

Lemma to_lower_ascii_idem : forall c, to_lower_ascii (to_lower_ascii c) = to_lower_ascii c.
Proof.
  intros [b0 b1 b2 b3 b4 b5 b6 b7].
  destruct b0, b1, b2, b3, b4, b5, b6, b7; reflexivity.
Qed.

Lemma tsl_map_lower : forall l,
  trim_start_list (map to_lower_ascii l) = map to_lower_ascii (trim_start_list l).
Proof.
  induction l as [|c l IH]; simpl; [reflexivity|].
  rewrite js_space_to_lower. destruct (is_js_space c); [exact IH|reflexivity].
Qed.

Lemma to_lower_trim : forall s, to_lower (trim s) = trim (to_lower s).
Proof.
  intros s. unfold to_lower, trim. rewrite !list_ascii_of_string_of_list_ascii.
  rewrite tsl_map_lower, <- map_rev, tsl_map_lower, <- map_rev. reflexivity.
Qed.

Lemma to_lower_idem : forall s, to_lower (to_lower s) = to_lower s.
Proof.
  intros s. unfold to_lower. rewrite list_ascii_of_string_of_list_ascii, map_map.
  f_equal. apply map_ext, to_lower_ascii_idem.
Qed.

Lemma tsl_no_lead : forall l, no_lead (trim_start_list l).
Proof.
  induction l as [|c l IH]; simpl; [exact I|].
  destruct (is_js_space c) eqn:E; [exact IH|exact E].
Qed.

Lemma tsl_id : forall l, no_lead l -> trim_start_list l = l.
Proof. intros [|c l] H; simpl in *; [reflexivity|]. rewrite H. reflexivity. Qed.

Lemma tsl_suffix : forall l, exists p, l = (p ++ trim_start_list l)%list.
Proof.
  induction l as [|c l [p Hp]]; simpl; [exists []; reflexivity|].
  destruct (is_js_space c); [exists (c :: p); simpl; rewrite <- Hp; reflexivity|].
  exists []; reflexivity.
Qed.

Lemma tsl_no_trail : forall l, no_lead (rev l) -> no_lead (rev (trim_start_list l)).
Proof.
  intros l H. destruct (tsl_suffix l) as [p Hp].
  rewrite Hp, rev_app_distr in H.
  destruct (rev (trim_start_list l)) as [|a r] eqn:E; [exact I|].
  exact H.
Qed.

Lemma trim_idem : forall s, trim (trim s) = trim s.
Proof.
  intros s. unfold trim. rewrite list_ascii_of_string_of_list_ascii. f_equal.
  set (m := trim_start_list (rev (trim_start_list (list_ascii_of_string s)))).
  assert (Hm1 : no_lead m) by apply tsl_no_lead.
  assert (Hm2 : no_lead (rev m)).
  { apply tsl_no_trail. rewrite rev_involutive. apply tsl_no_lead. }
  rewrite (tsl_id (rev m) Hm2), rev_involutive, (tsl_id m Hm1). reflexivity.
Qed.

Lemma status_key_str : forall x,
  to_lower (trim (if truthy (JStr x) then js_to_string (JStr x) else "")) = to_lower (trim x).
Proof.
  intros x. unfold truthy. destruct (String.eqb x "") eqn:E; [|reflexivity].
  apply String.eqb_eq in E. subst x. reflexivity.
Qed.

(** [X19]. The colour of a status label ignores case and surrounding
    white space, no-break spaces included ([" DONE "] and a ["DONE"]
    framed by NO-BREAK SPACEs are coloured as ["done"]); its text colour is
    dark exactly on the two grey backgrounds, as the status cell assumes;
    a missing label ([null], empty, ["undefined"], ["null"], ["-"]) gets
    the blank grey #c4c4c4, while a label outside the palette, such as
    ["No status"], gets the default grey #e0e0e0. *)
Theorem X19_status_colour :
  (forall s, getStatusColorStyle (JStr (to_lower s)) = getStatusColorStyle (JStr s)) /\
  (forall s, getStatusColorStyle (JStr (trim s)) = getStatusColorStyle (JStr s)) /\
  (forall v, color (getStatusColorStyle v) =
     if String.eqb (backgroundColor (getStatusColorStyle v)) "#c4c4c4"
        || String.eqb (backgroundColor (getStatusColorStyle v)) "#e0e0e0"
     then "#323338" else "#fff") /\
  backgroundColor (getStatusColorStyle (JStr " DONE ")) = "#00c875" /\
  (forall v, In v [JNull; JStr ""; JStr "undefined"; JStr " NULL "; JStr "-"] ->
     backgroundColor (getStatusColorStyle v) = "#c4c4c4") /\
  backgroundColor (getStatusColorStyle (JStr "No status")) = "#e0e0e0" /\
  backgroundColor (getStatusColorStyle
    (JStr (String (ascii_of_nat 160) ("DONE" ++ String (ascii_of_nat 160) "")))) = "#00c875".
Proof.
  split; [|split; [|split; [|split; [|split; [|split]]]]].
  - intros s. unfold getStatusColorStyle. cbv zeta.
    rewrite !status_key_str, <- to_lower_trim, to_lower_idem. reflexivity.
  - intros s. unfold getStatusColorStyle. cbv zeta.
    rewrite !status_key_str, trim_idem. reflexivity.
  - intros v. unfold getStatusColorStyle. cbv zeta.
    set (l := to_lower (trim (if truthy v then js_to_string v else ""))).
    destruct (String.eqb l "done" || String.eqb l "completed"); [reflexivity|].
    destruct (String.eqb l "working on it" || String.eqb l "in progress" || String.eqb l "working");
      [reflexivity|].
    destruct (String.eqb l "stuck" || String.eqb l "blocked"); [reflexivity|].
    destruct (String.eqb l "not started" || String.eqb l "ready"); [reflexivity|].
    destruct (String.eqb l "" || String.eqb l "undefined" || String.eqb l "null" || String.eqb l "-");
      reflexivity.
  - vm_compute. reflexivity.
  - intros v Hv. simpl in Hv.
    destruct Hv as [<-|[<-|[<-|[<-|[<-|[]]]]]]; vm_compute; reflexivity.
  - vm_compute. reflexivity.
  - vm_compute. reflexivity.
Qed.

(* ------------------------------------------------------------------ *)
(** ** How filter values combine *)

Lemma existsb_mono : forall {A} (f g : A -> bool) l,
  (forall x, f x = true -> g x = true) -> existsb f l = true -> existsb g l = true.
Proof.
  intros A f g l Hfg H. apply existsb_exists in H as [x [Hx Hf]].
  apply existsb_exists. exists x. auto.
Qed.

Lemma existsb_app_l : forall {A} (f : A -> bool) l r,
  existsb f l = true -> existsb f (l ++ r)%list = true.
Proof. intros A f l r H. rewrite existsb_app, H. reflexivity. Qed.

Lemma column_filter_passes_widen : forall jp cols item c l v,
  l <> [] -> column_filter_passes jp cols item (c, l) = true ->
  column_filter_passes jp cols item (c, (l ++ [v])%list) = true.
Proof.
  intros jp cols item c l v Hne H. unfold column_filter_passes in *.
  destruct (String.eqb c "current_user_filter"); [reflexivity|].
  destruct l as [|x l']; [congruence|]. cbn [app].
  destruct (find_meta c cols) as [meta|]; [|reflexivity].
  change (x :: (l' ++ [v]))%list with ((x :: l') ++ [v])%list.
  destruct (String.eqb (meta_type meta) "status").
  - unfold str_mem in *. apply existsb_app_l, H.
  - destruct (is_person_type (meta_type meta)).
    + unfold person_filter_passes in *.
      destruct (find_cv c (column_values item)) as [cv|];
        [|unfold str_mem in *; apply existsb_app_l, H].
      destruct (cv_value cv) as [s|]; [|unfold str_mem in *; apply existsb_app_l, H].
      destruct (blank_value (Some s)); [unfold str_mem in *; apply existsb_app_l, H|].
      unfold value_has_person in *. destruct (jp s) as [pv|]; [|discriminate].
      destruct (persons_of pv) as [ps|]; [|discriminate].
      revert H. apply existsb_mono. intros p. unfold person_id_satisfies.
      destruct (get_prop p "id") as [_|[idv|]]; try discriminate.
      intros Hp. apply andb_true_iff in Hp as [Hp1 Hp2]. rewrite Hp1, andb_true_l.
      unfold str_mem in *. apply existsb_app_l, Hp2.
    + apply existsb_app_l, H.
Qed.

Lemma forallb_obj_set_mono : forall (f : string * list string -> bool) c old new m,
  assoc_first c m = Some old -> (f (c, old) = true -> f (c, new) = true) ->
  forallb f m = true -> forallb f (obj_set c new m) = true.
Proof.
  intros f c old new m. induction m as [|[k' v'] m IH]; simpl; [discriminate|].
  intros Ha Hf Hall. apply andb_true_iff in Hall as [H1 H2].
  destruct (String.eqb c k') eqn:E; simpl.
  - injection Ha as ->. apply String.eqb_eq in E. subst k'. rewrite (Hf H1). exact H2.
  - rewrite H1. apply IH; assumption.
Qed.

Lemma forallb_obj_set_back : forall (f : string * list string -> bool) c new m,
  (forall old, assoc_first c m = Some old -> f (c, old) = true) ->
  forallb f (obj_set c new m) = true -> forallb f m = true.
Proof.
  intros f c new m. induction m as [|[k' v'] m IH]; simpl; [reflexivity|].
  intros Hold Hall. destruct (String.eqb c k') eqn:E; simpl in Hall.
  - apply andb_true_iff in Hall as [_ H2]. apply String.eqb_eq in E. subst k'.
    rewrite (Hold v' eq_refl). exact H2.
  - apply andb_true_iff in Hall as [H1 H2]. rewrite H1. simpl. apply IH; assumption.
Qed.

Lemma isFilterByCurrentUserActive_obj_set : forall c x m,
  c <> "current_user_filter" ->
  isFilterByCurrentUserActive (obj_set c x m) = isFilterByCurrentUserActive m.
Proof.
  intros c x m Hc. unfold isFilterByCurrentUserActive. rewrite assoc_first_obj_set.
  destruct (String.eqb "current_user_filter" c) eqn:E; [|reflexivity].
  apply String.eqb_eq in E. congruence.
Qed.

(** [X20]. In a column filter, checking a further value never hides an
    item that was shown (the values of one column are alternatives), while
    checking the first value of a column can only hide items. *)
Theorem X20_filter_value_monotone : forall jp abc cols m c v uid items it,
  c <> "current_user_filter" ->
  (forall l, assoc_first c m = Some l -> l <> [] ->
     In it (filter_items jp abc cols m uid items) ->
     In it (filter_items jp abc cols (handleFilterChange c v true m) uid items)) /\
  ((forall l, assoc_first c m = Some l -> l = []) ->
     In it (filter_items jp abc cols (handleFilterChange c v true m) uid items) ->
     In it (filter_items jp abc cols m uid items)).
Proof.
  intros jp abc cols m c v uid items it Hc.
  unfold filter_items, handleFilterChange. cbv zeta.
  rewrite isFilterByCurrentUserActive_obj_set by exact Hc.
  split.
  - intros l Hl Hne Hin. rewrite Hl. apply filter_In in Hin as [Hb Hp].
    apply filter_In. split; [exact Hb|].
    apply (forallb_obj_set_mono _ c l); auto.
    apply column_filter_passes_widen, Hne.
  - intros Hl Hin. apply filter_In in Hin as [Hb Hp].
    apply filter_In. split; [exact Hb|].
    eapply forallb_obj_set_back; [|exact Hp].
    intros old Hold. rewrite (Hl old Hold). apply column_filter_passes_empty.
Qed.

Lemma X20_filter_value_monotone_witness :
  In item_done (filter_items parse [] [done_meta] (handleFilterChange "status" "Stuck" true [("status", ["Done"])])
                  JNull [item_done]).
Proof.
  apply (proj1 (X20_filter_value_monotone parse [] [done_meta] [("status", ["Done"])] "status" "Stuck"
                  JNull [item_done] item_done ltac:(discriminate)) ["Done"] eq_refl ltac:(discriminate)).
  vm_compute. left. reflexivity.
Defined.

Lemma X19_status_colour_witness :
  backgroundColor (getStatusColorStyle (JStr " NULL ")) = "#c4c4c4".
Proof.
  exact (proj1 (proj2 (proj2 (proj2 (proj2 X19_status_colour)))) (JStr " NULL ")
           (or_intror (or_intror (or_intror (or_introl eq_refl))))).
Defined.
